(** * Quote estimation and appointment availability

    A shallow embedding of the business rules of the cleanout site's client
    script: [calculateQuote], in the revision of [src/script.js] and in the
    later revision with add-on fees, and [isWithinAvailability].

    JavaScript Numbers are IEEE 754 binary64 values; they are modelled by
    Rocq's primitive [float], whose operations round to nearest, ties to
    even, as JavaScript's do.  Equality between Numbers in the statements
    below is Leibniz equality on [float] (so [nan = nan]); where the
    comparison [===] is meant, it is written [=?].

    Strings are sequences of code units below 256 (Rocq's [string]).

    The built-ins the two functions rely on ([Number], [split], the [Date]
    constructor and [getDay], property lookup on an object literal) are
    defined here after the ECMAScript specification, to the extent the two
    functions use them. *)

From Stdlib Require Import ZArith String Ascii List Bool Lia.
From Stdlib Require Import Floats.PrimFloat Floats.SpecFloat Floats.FloatOps.
Import ListNotations.

Set Warnings "-inexact-float".

Local Open Scope string_scope.

(** ** Values *)

(** The values that flow through the two functions.  [VObject name] stands
    for a built-in object or function of the host, the one found under
    [name] on [Object.prototype]. *)
Inductive value : Type :=
| VUndefined
| VNull
| VBool (b : bool)
| VNumber (n : float)
| VString (s : string)
| VObject (name : string).

(** [ToBoolean]: [undefined], [null], [false], [+0], [-0], [NaN] and the
    empty string are falsy, everything else is truthy. *)
Definition ToBoolean (v : value) : bool :=
  match v with
  | VUndefined | VNull => false
  | VBool b => b
  | VNumber n => negb (PrimFloat.eqb n 0 || PrimFloat.is_nan n)
  | VString s => negb (String.eqb s "")
  | VObject _ => true
  end.

(** [a || b] on values: the left operand when it is truthy. *)
Definition js_or (a b : value) : value :=
  if ToBoolean a then a else b.

(** ** Plain objects used as lookup tables *)

(** Own properties of an object literal whose values are numbers. *)
Definition object : Type := list (string * float).

(** Property names every plain object inherits from [Object.prototype] in a
    browser. *)
Definition ObjectPrototype : list string :=
  [ "constructor"; "hasOwnProperty"; "isPrototypeOf"; "propertyIsEnumerable";
    "toLocaleString"; "toString"; "valueOf"; "__proto__";
    "__defineGetter__"; "__defineSetter__";
    "__lookupGetter__"; "__lookupSetter__" ].

Fixpoint GetOwn (o : object) (key : string) : option float :=
  match o with
  | [] => None
  | (k, v) :: rest => if String.eqb k key then Some v else GetOwn rest key
  end.

(** [o[key]]: the own property if there is one, else what the prototype
    chain holds under that name, else [undefined]. *)
Definition Get (o : object) (key : string) : value :=
  match GetOwn o key with
  | Some v => VNumber v
  | None =>
      if existsb (String.eqb key) ObjectPrototype then VObject key
      else VUndefined
  end.

(** ** Numbers *)

Local Open Scope Z_scope.

(** The Number nearest to an integer (ties to even). *)
Definition of_Z (z : Z) : float :=
  SF2Prim (binary_normalize prec emax z 0 false).

(** Truncation towards zero of a finite Number; [None] for [NaN] and the
    infinities. *)
Definition truncate (x : float) : option Z :=
  match Prim2SF x with
  | S754_zero _ => Some 0
  | S754_finite s m e =>
      let a := if 0 <=? e then Z.shiftl (Zpos m) e else Z.shiftr (Zpos m) (- e) in
      Some (if s then - a else a)
  | S754_infinity _ | S754_nan => None
  end.

(** The Number nearest to [m * 10 ^ e] for [0 <= m].  For a negative
    exponent the quotient is computed with 64 bits or more and a sticky bit,
    so that the single rounding of [binary_normalize] is the rounding of the
    exact quotient. *)
Definition decimal_to_float (m e : Z) : float :=
  if m =? 0 then 0%float
  else if 0 <=? e then of_Z (m * 10 ^ e)
  else
    let d := 10 ^ (- e) in
    let s := Z.log2_up d + 64 in
    let n := Z.shiftl m s in
    let sticky := if n mod d =? 0 then 0 else 1 in
    SF2Prim (binary_normalize prec emax (2 * (n / d) + sticky) (- (s + 1)) false).

(** *** [StringToNumber] *)

(** White space and line terminators among the code units below 256. *)
Definition is_white_space (c : ascii) : bool :=
  let n := Z.of_N (N_of_ascii c) in
  (9 <=? n) && (n <=? 13) || (n =? 32) || (n =? 160).

Fixpoint trim_start (s : string) : string :=
  match s with
  | String c r => if is_white_space c then trim_start r else s
  | EmptyString => EmptyString
  end.

Fixpoint trim_end (s : string) : string :=
  match s with
  | String c r =>
      match trim_end r with
      | EmptyString => if is_white_space c then EmptyString else String c EmptyString
      | r' => String c r'
      end
  | EmptyString => EmptyString
  end.

Definition trim (s : string) : string := trim_end (trim_start s).

(** Value of a digit in the given base, letters in either case. *)
Definition digit_of (base : Z) (c : ascii) : option Z :=
  let n := Z.of_N (N_of_ascii c) in
  let d := if (48 <=? n) && (n <=? 57) then n - 48
           else if (97 <=? n) && (n <=? 122) then n - 87
           else if (65 <=? n) && (n <=? 90) then n - 55
           else base in
  if d <? base then Some d else None.

(** Reads the longest prefix of digits: the accumulated value, the number of
    digits read and the rest of the string. *)
Fixpoint read_digits (base acc : Z) (count : nat) (s : string) : Z * nat * string :=
  match s with
  | String c r =>
      match digit_of base c with
      | Some d => read_digits base (acc * base + d) (S count) r
      | None => (acc, count, s)
      end
  | EmptyString => (acc, count, s)
  end.

(** [0x], [0o] and [0b] literals: no sign, one digit at least. *)
Definition read_nondecimal (s : string) : option Z :=
  match s with
  | String z (String p r) =>
      let has c := Ascii.eqb p c in
      let base := if has "x"%char || has "X"%char then 16
                  else if has "o"%char || has "O"%char then 8
                  else if has "b"%char || has "B"%char then 2
                  else 0 in
      if Ascii.eqb z "0"%char && negb (base =? 0) then
        match read_digits base 0 0 r with
        | (n, S _, EmptyString) => Some n
        | _ => None
        end
      else None
  | _ => None
  end.

(** The optional exponent part, which must end the literal. *)
Definition read_exponent (s : string) : option Z :=
  match s with
  | EmptyString => Some 0
  | String c r =>
      if ((c =? "e") || (c =? "E"))%char then
        let '(neg, r') :=
          match r with
          | String "+" t => (false, t)
          | String "-" t => (true, t)
          | _ => (false, r)
          end%char in
        match read_digits 10 0 0 r' with
        | (e, S _, EmptyString) => Some (if neg then - e else e)
        | _ => None
        end
      else None
  end.

(** An unsigned decimal literal as mantissa and decimal exponent:
    digits, optional fraction, optional exponent, one digit at least before
    the exponent. *)
Definition read_decimal (s : string) : option (Z * Z) :=
  let '(ip, ni, r1) := read_digits 10 0 0 s in
  let '(m, nf, r2) :=
    match r1 with
    | String "." t => read_digits 10 ip 0 t
    | _ => (ip, 0%nat, r1)
    end%char in
  match (ni + nf)%nat, read_exponent r2 with
  | S _, Some e => Some (m, e - Z.of_nat nf)
  | _, _ => None
  end.

(** The forms of a string seen as a numeric literal. *)
Inductive numeric_literal : Type :=
| Blank
| NonDecimal (n : Z)
| SignedInfinity (negative : bool)
| Decimal (negative : bool) (mantissa exponent : Z)
| NotNumeric.

(** White space is trimmed at both ends; a sign is allowed before a decimal
    literal and before [Infinity] only. *)
Definition read_literal (s : string) : numeric_literal :=
  let t := trim s in
  if String.eqb t "" then Blank
  else
    match read_nondecimal t with
    | Some n => NonDecimal n
    | None =>
        let '(neg, u) :=
          match t with
          | String "+" r => (false, r)
          | String "-" r => (true, r)
          | _ => (false, t)
          end%char in
        if String.eqb u "Infinity" then SignedInfinity neg
        else match read_decimal u with
             | Some (m, e) => Decimal neg m e
             | None => NotNumeric
             end
    end.

Definition literal_value (l : numeric_literal) : float :=
  let sign (neg : bool) (x : float) := if neg then (- x)%float else x in
  match l with
  | Blank => 0%float
  | NonDecimal n => of_Z n
  | SignedInfinity neg => sign neg infinity
  | Decimal neg m e => sign neg (decimal_to_float m e)
  | NotNumeric => nan
  end.

(** The Number a string converts to: [+0] for an empty or blank string,
    [NaN] for anything that is not a numeric literal. *)
Definition StringToNumber (s : string) : float :=
  literal_value (read_literal s).

(** [ToNumber]; the built-in objects of [ObjectPrototype] all convert to
    [NaN] (their string forms are not numeric literals). *)
Definition ToNumber (v : value) : float :=
  match v with
  | VUndefined => nan
  | VNull => 0%float
  | VBool b => if b then 1%float else 0%float
  | VNumber n => n
  | VString s => StringToNumber s
  | VObject _ => nan
  end.

(** [Number(v)] called as a function. *)
Definition Number (v : value) : value := VNumber (ToNumber v).

(** ** Quote estimation *)

Local Open Scope float_scope.

(** The multiplier table both revisions declare. *)
Definition multipliers : object :=
  [ ("residential", 1.0); ("commercial", 1.2);
    ("abandoned", 1.5); ("construction", 0.8) ].

(** [calculateQuote] of the later revision (base rate 2.5, optional fees).
    The two flags default to [false] when omitted. *)
Definition calculateQuote (size : float) (type : string)
    (hasHazard hasLawn : bool) : float :=
  let baseRate := 2.5 in
  let multiplier := js_or (Get multipliers type) (VNumber 1.0) in
  let estimate := size * baseRate * ToNumber multiplier in
  let estimate := if hasHazard then estimate + 50 else estimate in
  let estimate := if hasLawn then estimate + 99 else estimate in
  estimate.

(** [calculateQuote] of [src/script.js]. *)
Module Script.

Definition calculateQuote (size : float) (type : string) : float :=
  let baseRate := 0.50 in
  let multiplier := js_or (Get multipliers type) (VNumber 1.0) in
  size * baseRate * ToNumber multiplier.

End Script.

(** The multiplier a key resolves to, after the [|| 1.0] fallback. *)
Definition effective_multiplier (type : string) : float :=
  ToNumber (js_or (Get multipliers type) (VNumber 1.0)).

(** ** The data model of the specification *)

(** The enumerated property types. *)
Inductive propertyType : Type :=
| residential
| commercial
| abandoned
| construction.

(** The key a property type is submitted under. *)
Definition key (t : propertyType) : string :=
  match t with
  | residential => "residential"
  | commercial => "commercial"
  | abandoned => "abandoned"
  | construction => "construction"
  end.

(** The multiplier table as the specification lists it. *)
Definition multiplier (t : propertyType) : float :=
  match t with
  | residential => 1.0
  | commercial => 1.2
  | abandoned => 1.5
  | construction => 0.8
  end.


(** ** Operators on values *)

(** [a - b]. *)
Definition js_sub (a b : value) : value :=
  VNumber (ToNumber a - ToNumber b).

(** [a < b]: two strings compare by code units, anything else as Numbers;
    a comparison with [NaN] is false. *)
Definition js_lt (a b : value) : bool :=
  match a, b with
  | VString x, VString y => String.ltb x y
  | _, _ => ToNumber a <? ToNumber b
  end.

(** [a > b]. *)
Definition js_gt (a b : value) : bool := js_lt b a.

(** [a === b]: same type and same value; [NaN] differs from itself. *)
Definition js_strict_eq (a b : value) : bool :=
  match a, b with
  | VUndefined, VUndefined => true
  | VNull, VNull => true
  | VBool x, VBool y => Bool.eqb x y
  | VNumber x, VNumber y => x =? y
  | VString x, VString y => String.eqb x y
  | VObject x, VObject y => String.eqb x y
  | _, _ => false
  end.

(** ** Exceptions *)

(** The outcome of evaluating code that may throw. *)
Inductive completion (A : Type) : Type :=
| Normal (a : A)
| Throw (error : string).

Arguments Normal {A} a.
Arguments Throw {A} error.

Definition bind {A B : Type} (c : completion A) (k : A -> completion B) : completion B :=
  match c with
  | Normal a => k a
  | Throw e => Throw e
  end.

Notation "x <- c ;; k" := (bind c (fun x => k))
  (at level 61, c at next level, right associativity).

(** [try { body } catch (e) { handler }]. *)
Definition try_catch {A : Type} (body : completion A) (handler : string -> A) : A :=
  match body with
  | Normal a => a
  | Throw e => handler e
  end.

(** ** Strings and arrays *)

(** [s.split(sep)] for a separator of one code unit. *)
Fixpoint split (sep : ascii) (s : string) : list string :=
  match s with
  | EmptyString => [EmptyString]
  | String c r =>
      if Ascii.eqb c sep then EmptyString :: split sep r
      else match split sep r with
           | first :: others => String c first :: others
           | [] => [String c EmptyString]
           end
  end.

(** The method call [v.split(sep)]: only strings have the method, on any
    other value the call throws a [TypeError]. *)
Definition call_split (v : value) (sep : ascii) : completion (list value) :=
  match v with
  | VString s => Normal (map VString (split sep s))
  | _ => Throw "TypeError"
  end.

(** [a[i]]: [undefined] past the end of the array. *)
Definition index (a : list value) (i : nat) : value := nth i a VUndefined.

(** ** Dates *)

Local Open Scope Z_scope.

Definition msPerDay : Z := 86400000.

(** Day number of the first day of year [y], counted from 1 January 1970. *)
Definition DayFromYear (y : Z) : Z :=
  365 * (y - 1970) + (y - 1969) / 4 - (y - 1901) / 100 + (y - 1601) / 400.

Definition InLeapYear (y : Z) : bool :=
  (y mod 4 =? 0) && (negb (y mod 100 =? 0) || (y mod 400 =? 0)).

(** Day within the year of the first day of month [mn] (0 is January). *)
Definition DayWithinYear (leap : bool) (mn : Z) : Z :=
  let l := if leap then 1 else 0 in
  match mn with
  | 0 => 0
  | 1 => 31
  | 2 => 59 + l
  | 3 => 90 + l
  | 4 => 120 + l
  | 5 => 151 + l
  | 6 => 181 + l
  | 7 => 212 + l
  | 8 => 243 + l
  | 9 => 273 + l
  | 10 => 304 + l
  | _ => 334 + l
  end.

(** The largest magnitude of a time value, in milliseconds. *)
Definition maxTime : Z := 8640000000000000.

(** [Day(t)] and [WeekDay(t)]: 0 is Sunday, 1 January 1970 is a Thursday. *)
Definition Day (t : Z) : Z := t / msPerDay.
Definition WeekDay (t : Z) : Z := (Day t + 4) mod 7.

(** The year of the two-digit convention of the [Date] constructor: a year
    from 0 to 99 stands for 1900 to 1999.  [None] when the Number is not
    finite. *)
Definition MakeFullYear (year : float) : option Z :=
  match truncate year with
  | Some yi => Some (if (0 <=? yi) && (yi <=? 99) then 1900 + yi else yi)
  | None => None
  end.

(** [MakeDay]: months outside 0..11 carry into the year, the day of the
    month is an offset from the first of the month and may be any integer.
    [None] is [NaN]: an argument that is not finite, or a month whose first
    day is not a time value.  (Engines differ on the last condition for
    years beyond the range of time values; no such year occurs below.) *)
Definition MakeDay (year month date : option Z) : option Z :=
  match year, month, date with
  | Some y, Some m, Some dt =>
      let ym := y + m / 12 in
      let mn := m mod 12 in
      let first := DayFromYear ym + DayWithinYear (InLeapYear ym) mn in
      if Z.abs (first * msPerDay) <=? maxTime then Some (first + dt - 1)
      else None
  | _, _, _ => None
  end.

Definition MakeDate (day time : Z) : Z := day * msPerDay + time.

Definition TimeClip (t : Z) : option Z :=
  if Z.abs t <=? maxTime then Some t else None.

Section Host.

(** The host's time zone, as a fixed offset of local time from UTC in
    milliseconds.  Zones whose offset changes in the course of the year are
    outside this model. *)
Variable LocalTZA : Z.

Definition LocalTime (t : Z) : Z := t + LocalTZA.
Definition UTC (t : Z) : Z := t - LocalTZA.

(** [new Date(year, month, date)]: the arguments are local calendar fields,
    the time of day is midnight.  The result is the time value of the new
    object, [None] for an invalid date. *)
Definition Date_new (year month date : value) : option Z :=
  let y := ToNumber year in
  let m := ToNumber month in
  let dt := ToNumber date in
  match MakeDay (MakeFullYear y) (truncate m) (truncate dt) with
  | Some day => TimeClip (UTC (MakeDate day 0))
  | None => None
  end.

(** [d.getDay()]: the local day of the week, [NaN] for an invalid date. *)
Definition getDay (d : option Z) : value :=
  match d with
  | Some t => VNumber (of_Z (WeekDay (LocalTime t)))
  | None => VNumber nan
  end.

(** ** Availability *)

(** [isWithinAvailability]: Monday to Friday, 08:00 to 17:00. *)
Definition isWithinAvailability (dateStr timeStr : value) : bool :=
  try_catch
    (dateParts <- call_split dateStr "-" ;;
     let dateParts := map Number dateParts in
     timeParts <- call_split timeStr ":" ;;
     let timeParts := map Number timeParts in
     let dateObj :=
       Date_new (index dateParts 0) (js_sub (index dateParts 1) (VNumber 1))
                (index dateParts 2) in
     let day := getDay dateObj in
     let hour := index timeParts 0 in
     let minute := index timeParts 1 in
     if js_lt day (VNumber 1) || js_gt day (VNumber 5) then Normal false
     else
       let startHour := VNumber 8 in
       let endHour := VNumber 17 in
       if js_lt hour startHour || js_gt hour endHour then Normal false
       else if js_strict_eq hour endHour && js_gt minute (VNumber 0)
            then Normal false
            else Normal true)
    (fun e => false).

End Host.

(** ** The parts of [isWithinAvailability] *)

(** [s.split(sep).map(Number)]. *)
Definition numbers (sep : ascii) (s : string) : list value :=
  map Number (map VString (split sep s)).

(** The value of [day] for a date string: [getDay()] of the [Date] built
    from the first three parts of the string, the month moved to 0..11. *)
Definition computedDay (LocalTZA : Z) (dateStr : string) : value :=
  let dateParts := numbers "-" dateStr in
  getDay LocalTZA
    (Date_new LocalTZA (index dateParts 0)
       (js_sub (index dateParts 1) (VNumber 1)) (index dateParts 2)).

(** The three guards, on the values of [day], [hour] and [minute]. *)
Definition guards (day hour minute : value) : bool :=
  if js_lt day (VNumber 1) || js_gt day (VNumber 5) then false
  else if js_lt hour (VNumber 8) || js_gt hour (VNumber 17) then false
  else if js_strict_eq hour (VNumber 17) && js_gt minute (VNumber 0) then false
  else true.

(** ** Well-formed dates and times *)

Definition digit (n : Z) : ascii := ascii_of_N (Z.to_N (48 + n)).

Definition two_digits (n : Z) : string :=
  String (digit (n / 10)) (String (digit (n mod 10)) EmptyString).

Definition four_digits (n : Z) : string :=
  String (digit (n / 1000))
    (String (digit (n / 100 mod 10)) (two_digits (n mod 100))).

(** The time [HH:MM]. *)
Definition clock (h m : Z) : string :=
  two_digits h ++ ":" ++ two_digits m.

(** The date [YYYY-MM-DD]. *)
Definition iso_date (y m d : Z) : string :=
  four_digits y ++ "-" ++ two_digits m ++ "-" ++ two_digits d.

(** The booking window in minutes since midnight: 08:00 to 17:00, both
    ends included. *)
Definition in_window (h m : Z) : bool :=
  (8 * 60 <=? h * 60 + m) && (h * 60 + m <=? 17 * 60).

(** ** The Gregorian calendar *)

(** Day of the week of the date [y]-[m]-[d] by Zeller's congruence, with
    January and February counted as months 13 and 14 of the year before;
    renumbered so that 0 is Sunday and 6 is Saturday. *)
Definition calendar_weekday (y m d : Z) : Z :=
  let Y := if m <=? 2 then y - 1 else y in
  let M := if m <=? 2 then m + 12 else m in
  let K := Y mod 100 in
  let J := Y / 100 in
  let h := (d + 13 * (M + 1) / 5 + K + K / 4 + J / 4 + 5 * J) mod 7 in
  (h + 6) mod 7.

(** The year the [Date] constructor uses for the year [y] of a date string:
    the two-digit convention of [MakeFullYear]. *)
Definition constructor_year (y : Z) : Z :=
  if (0 <=? y) && (y <=? 99) then 1900 + y else y.

(** ** Exhaustive checks over finite ranges *)

(** [f] holds on the [count] integers from [from] on. *)
Fixpoint forall_range (f : Z -> bool) (count : nat) (from : Z) : bool :=
  match count with
  | O => true
  | S count' => f from && forall_range f count' (from + 1)
  end.

(** A string of digits is one part for [split "-"] and for [split ":"],
    reads as the decimal literal of its value, and that value survives the
    passage through Numbers. *)
Definition reads_as (s : string) (n : Z) : bool :=
  match split "-" s, split ":" s, read_literal s with
  | [p], [q], Decimal false m 0 =>
      String.eqb p s && String.eqb q s && (m =? n)
      && match truncate (of_Z n) with
         | Some k => k =? n
         | None => false
         end
  | _, _, _ => false
  end.

(** With both flags, the two fees added in turn against 149 added at once,
    compared as [===] compares Numbers, for the four multipliers. *)
Definition both_flags_agree (n : Z) : bool :=
  forallb (fun t =>
             (of_Z n * 2.5 * multiplier t + 50 + 99
              =? of_Z n * 2.5 * multiplier t + 149)%float)
    [residential; commercial; abandoned; construction].

(** * The form handlers *)

(** ** Text *)

(** The text of an element: a string of code units of any value.  The
    literals of the handlers hold the code units 8209 (a non-breaking
    hyphen) and 8211 (an en dash), which the strings above cannot. *)
Definition text : Type := list N.

(** A string of code units below 256 as text. *)
Fixpoint units (s : string) : text :=
  match s with
  | EmptyString => []
  | String c r => N_of_ascii c :: units r
  end.

Definition non_breaking_hyphen : text := [8209%N].
Definition en_dash : text := [8211%N].

(** A template literal or a chain of [+=]: the parts one after the other. *)
Definition template (parts : list text) : text := concat parts.

(** A string is truthy when it is not empty. *)
Definition truthy (s : string) : bool := ToBoolean (VString s).

(** ** [parseFloat] *)

(** The exponent of the longest prefix that is an exponent part, 0 when
    there is none. *)
Definition read_exponent_prefix (s : string) : Z :=
  match s with
  | String c r =>
      if ((c =? "e") || (c =? "E"))%char then
        let '(neg, r') :=
          match r with
          | String "+" t => (false, t)
          | String "-" t => (true, t)
          | _ => (false, r)
          end%char in
        match read_digits 10 0 0 r' with
        | (e, S _, _) => if neg then - e else e
        | (_, O, _) => 0
        end
      else 0
  | EmptyString => 0
  end.

(** The longest prefix that is an unsigned decimal literal, as mantissa and
    decimal exponent; [None] when no prefix is one. *)
Definition read_decimal_prefix (s : string) : option (Z * Z) :=
  let '(ip, ni, r1) := read_digits 10 0 0 s in
  let '(m, nf, r2) :=
    match r1 with
    | String "." t => read_digits 10 ip 0 t
    | _ => (ip, 0%nat, r1)
    end%char in
  match (ni + nf)%nat with
  | S _ => Some (m, read_exponent_prefix r2 - Z.of_nat nf)
  | O => None
  end.

(** An optional sign before a literal, and what follows it. *)
Definition split_sign (t : string) : bool * string :=
  match t with
  | String "+" r => (false, r)
  | String "-" r => (true, r)
  | _ => (false, t)
  end%char.

(** [parseFloat(s)]: leading white space is skipped, what follows the
    longest decimal literal is ignored, [NaN] when there is no such
    literal.  No hexadecimal, octal or binary literals here. *)
Definition parseFloat (s : string) : float :=
  let '(neg, u) := split_sign (trim_start s) in
  let sign (x : float) := if neg then (- x)%float else x in
  if String.prefix "Infinity" u then sign infinity
  else match read_decimal_prefix u with
       | Some (m, e) => sign (decimal_to_float m e)
       | None => nan
       end.

(** ** The page *)

(** An element that shows a message. *)
Record element : Type := {
  textContent : text;
  hidden : bool
}.

(** A control that holds a string (an input, a select, a text area), with
    the value [reset()] gives it back. *)
Record control : Type := {
  control_value : string;
  defaultValue : string
}.

Record checkbox : Type := {
  checked : bool;
  defaultChecked : bool
}.

Definition reset_control (c : control) : control :=
  {| control_value := defaultValue c; defaultValue := defaultValue c |}.

Definition reset_checkbox (c : checkbox) : checkbox :=
  {| checked := defaultChecked c; defaultChecked := defaultChecked c |}.

(** The form [contactForm] with the controls the handler reads. *)
Module Contact.

Record form : Type := {
  name : control;
  email : control;
  message : control
}.

Definition reset (f : form) : form :=
  {| name := reset_control (name f);
     email := reset_control (email f);
     message := reset_control (message f) |}.

End Contact.

(** The form [quoteForm]; the two check boxes may be absent from it. *)
Module Quote.

Record form : Type := {
  name : control;
  type : control;
  size : control;
  hazardous : option checkbox;
  lawn : option checkbox
}.

End Quote.

(** The form [scheduleForm]. *)
Module Schedule.

Record form : Type := {
  name : control;
  date : control;
  time : control
}.

Definition reset (f : form) : form :=
  {| name := reset_control (name f);
     date := reset_control (date f);
     time := reset_control (time f) |}.

End Schedule.

(** The elements the handlers look up by id; [None] when the page has no
    element of that id. *)
Record document : Type := {
  contactForm : option Contact.form;
  formResponse : option element;
  quoteForm : option Quote.form;
  quoteResult : option element;
  scheduleForm : option Schedule.form;
  scheduleResult : option element
}.

Definition set_contact (doc : document) (f : Contact.form) (el : element) : document :=
  {| contactForm := Some f;
     formResponse := Some el;
     quoteForm := quoteForm doc;
     quoteResult := quoteResult doc;
     scheduleForm := scheduleForm doc;
     scheduleResult := scheduleResult doc |}.

Definition set_quoteResult (doc : document) (el : element) : document :=
  {| contactForm := contactForm doc;
     formResponse := formResponse doc;
     quoteForm := quoteForm doc;
     quoteResult := Some el;
     scheduleForm := scheduleForm doc;
     scheduleResult := scheduleResult doc |}.

Definition set_schedule (doc : document) (f : Schedule.form) (el : element) : document :=
  {| contactForm := contactForm doc;
     formResponse := formResponse doc;
     quoteForm := quoteForm doc;
     quoteResult := quoteResult doc;
     scheduleForm := Some f;
     scheduleResult := Some el |}.

(** A submit event. *)
Record event : Type := {
  defaultPrevented : bool
}.

Definition preventDefault (ev : event) : event :=
  {| defaultPrevented := true |}.

(** What a handler leaves behind: its completion, the event and the page. *)
Record outcome : Type := {
  returned : completion bool;
  event_after : event;
  page : document
}.

(** A message shown in an element: [el.textContent = t; el.hidden = false]. *)
Definition shown (t : text) : element :=
  {| textContent := t; hidden := false |}.

(** ** Dates read from a string *)

Definition DaysInMonth (leap : bool) (m : Z) : Z :=
  match m with
  | 2 => if leap then 29 else 28
  | 4 | 6 | 9 | 11 => 30
  | _ => 31
  end.

(** The fields of a string of the form [YYYY-MM-DD], ten code units, all
    digits but the two hyphens. *)
Definition date_only_fields (s : string) : option (Z * Z * Z) :=
  match s with
  | String y1 (String y2 (String y3 (String y4 (String h1
      (String m1 (String m2 (String h2 (String d1 (String d2 EmptyString))))))))) =>
      match digit_of 10 y1, digit_of 10 y2, digit_of 10 y3, digit_of 10 y4,
            digit_of 10 m1, digit_of 10 m2, digit_of 10 d1, digit_of 10 d2 with
      | Some a, Some b, Some c, Some d, Some e, Some f, Some g, Some h =>
          if Ascii.eqb h1 "-"%char && Ascii.eqb h2 "-"%char
          then Some (1000 * a + 100 * b + 10 * c + d, 10 * e + f, 10 * g + h)
          else None
      | _, _, _, _, _, _, _, _ => None
      end
  | _ => None
  end.

Section Handlers.

(** The host: the offset of local time from UTC; the rendering of an amount
    by [toLocaleString('en-US', {style: 'currency', currency: 'USD'})]; the
    rendering of a local day (its day number, [None] for an invalid date)
    by [toLocaleDateString] with year, long month and day in the host's
    locale; and what [new Date(s)] makes of a string that is not a date of
    the calendar written [YYYY-MM-DD]. *)
Variable LocalTZA : Z.
Variable toLocaleString : float -> text.
Variable renderDate : option Z -> text.
Variable parseOther : string -> option Z.

(** [new Date(s)] for a string: a date of the calendar written
    [YYYY-MM-DD] is midnight UTC of that date, with the year as written. *)
Definition Date_parse (s : string) : option Z :=
  match date_only_fields s with
  | Some (y, m, d) =>
      if (1 <=? m) && (m <=? 12) && (1 <=? d) && (d <=? DaysInMonth (InLeapYear y) m)
      then match MakeDay (Some y) (Some (m - 1)) (Some d) with
           | Some day => TimeClip (MakeDate day 0)
           | None => None
           end
      else parseOther s
  | None => parseOther s
  end.

(** [d.toLocaleDateString(undefined, options)]: the local day is rendered. *)
Definition toLocaleDateString (d : option Z) : text :=
  renderDate (option_map (fun t => Day (LocalTime LocalTZA t)) d).

(** [handleSubmit], the same in both revisions. *)
Definition handleSubmit (ev : event) (doc : document) : outcome :=
  let ev := preventDefault ev in
  match contactForm doc, formResponse doc with
  | Some form, Some responseEl =>
      let name := trim (control_value (Contact.name form)) in
      let email := trim (control_value (Contact.email form)) in
      let message := trim (control_value (Contact.message form)) in
      if truthy name && truthy email && truthy message then
        let responseEl :=
          shown (template [units "Thank you, "; units name;
                           units "! Your message has been sent."]) in
        {| returned := Normal false; event_after := ev;
           page := set_contact doc (Contact.reset form) responseEl |}
      else
        let responseEl := shown (units "Please complete all fields.") in
        {| returned := Normal false; event_after := ev;
           page := set_contact doc form responseEl |}
  | _, _ => {| returned := Normal false; event_after := ev; page := doc |}
  end.

(** [form.hazardous && form.hazardous.checked]: a missing box gives
    [undefined], which both the default parameter of [calculateQuote] and
    the [if] of the handler take for [false]. *)
Definition box_checked (box : option checkbox) : bool :=
  match box with
  | Some c => checked c
  | None => false
  end.

(** Writing the message of an element that may be missing: a [TypeError]
    when it is, before anything is written. *)
Definition show_quote (ev : event) (doc : document) (t : text) : outcome :=
  match quoteResult doc with
  | Some _ =>
      {| returned := Normal false; event_after := ev;
         page := set_quoteResult doc (shown t) |}
  | None => {| returned := Throw "TypeError"; event_after := ev; page := doc |}
  end.

(** [handleQuote] of the later revision. *)
Definition handleQuote (ev : event) (doc : document) : outcome :=
  let ev := preventDefault ev in
  match quoteForm doc with
  | None => {| returned := Throw "TypeError"; event_after := ev; page := doc |}
  | Some form =>
      let name := trim (control_value (Quote.name form)) in
      let type := control_value (Quote.type form) in
      let size := parseFloat (control_value (Quote.size form)) in
      let hasHazard := box_checked (Quote.hazardous form) in
      let hasLawn := box_checked (Quote.lawn form) in
      if negb (truthy name) || negb (truthy type)
         || negb (ToBoolean (VNumber size)) || is_nan size
      then show_quote ev doc (units "Please provide all required fields.")
      else
        let estimate := calculateQuote size type hasHazard hasLawn in
        let formatted := toLocaleString estimate in
        let detail :=
          template [units name; units ", your estimated cleanout cost is ";
                    formatted; units "."] in
        let detail :=
          if hasHazard
          then template [detail;
                         units " This includes a $50 hazardous waste handling fee."]
          else detail in
        let detail :=
          if hasLawn
          then template [detail; units " This includes our limited";
                         non_breaking_hyphen; units "time $99 lawn cut special."]
          else detail in
        let detail :=
          template [detail; units " Final pricing may vary based on on";
                    non_breaking_hyphen; units "site assessment."] in
        show_quote ev doc detail
  end.

(** Writing the message of the schedule result, and the form as it is to
    be left. *)
Definition show_schedule (ev : event) (doc : document) (f : Schedule.form)
    (reset : bool) (t : text) : outcome :=
  match scheduleResult doc with
  | Some _ =>
      {| returned := Normal false; event_after := ev;
         page := set_schedule doc (if reset then Schedule.reset f else f) (shown t) |}
  | None => {| returned := Throw "TypeError"; event_after := ev; page := doc |}
  end.

(** The confirmation of a request. *)
Definition confirmation (name date time : string) : text :=
  let formattedDate := toLocaleDateString (Date_parse date) in
  let formattedTime := units time in
  template [units "Thank you, "; units name;
            units "! Your appointment request for "; formattedDate;
            units " at "; formattedTime;
            units " has been received. We will contact you to confirm."].

(** [handleSchedule] of the later revision. *)
Definition handleSchedule (ev : event) (doc : document) : outcome :=
  let ev := preventDefault ev in
  match scheduleForm doc with
  | None => {| returned := Throw "TypeError"; event_after := ev; page := doc |}
  | Some form =>
      let name := trim (control_value (Schedule.name form)) in
      let date := control_value (Schedule.date form) in
      let time := control_value (Schedule.time form) in
      if negb (truthy name) || negb (truthy date) || negb (truthy time)
      then show_schedule ev doc form false
             (units "Please fill out your name, date and time.")
      else if negb (isWithinAvailability LocalTZA (VString date) (VString time))
      then show_schedule ev doc form false
             (template [units "Selected date/time is outside our booking window (Mon";
                        en_dash; units "Fri 8:00 AM"; en_dash;
                        units "5:00 PM). Please choose another time."])
      else show_schedule ev doc form true (confirmation name date time)
  end.

End Handlers.

(** The handlers of [src/script.js] that differ from the later revision. *)
Module ScriptHandlers.

Section Handlers.

Variable LocalTZA : Z.
Variable toLocaleString : float -> text.
Variable renderDate : option Z -> text.
Variable parseOther : string -> option Z.

Definition handleQuote (ev : event) (doc : document) : outcome :=
  let ev := preventDefault ev in
  match quoteForm doc with
  | None => {| returned := Throw "TypeError"; event_after := ev; page := doc |}
  | Some form =>
      let name := trim (control_value (Quote.name form)) in
      let type := control_value (Quote.type form) in
      let size := parseFloat (control_value (Quote.size form)) in
      if negb (truthy name) || negb (truthy type)
         || negb (ToBoolean (VNumber size)) || is_nan size
      then show_quote ev doc (units "Please provide all required fields.")
      else
        let estimate := Script.calculateQuote size type in
        let formatted := toLocaleString estimate in
        show_quote ev doc
          (template [units name; units ", your estimated cleanout cost is ";
                     formatted; units ". This price may vary based on on";
                     non_breaking_hyphen; units "site assessment."])
  end.

Definition handleSchedule (ev : event) (doc : document) : outcome :=
  let ev := preventDefault ev in
  match scheduleForm doc with
  | None => {| returned := Throw "TypeError"; event_after := ev; page := doc |}
  | Some form =>
      let name := trim (control_value (Schedule.name form)) in
      let date := control_value (Schedule.date form) in
      let time := control_value (Schedule.time form) in
      if negb (truthy name) || negb (truthy date) || negb (truthy time)
      then show_schedule ev doc form false
             (units "Please fill out your name, date and time.")
      else show_schedule ev doc form true
             (confirmation LocalTZA renderDate parseOther name date time)
  end.

End Handlers.

End ScriptHandlers.

(** ** Notions for the statements about the handlers *)

(** A string of white space only; the empty string is one. *)
Fixpoint blank (s : string) : bool :=
  match s with
  | EmptyString => true
  | String c r => is_white_space c && blank r
  end.

(** [s'] is [s] with white space added before and after. *)
Definition padded (s s' : string) : Prop :=
  exists a b, blank a = true /\ blank b = true /\ s' = (a ++ s ++ b)%string.

(** A Number the quote handlers accept as a size: not zero, not [NaN]. *)
Definition quotable (x : float) : bool :=
  negb (x =? 0)%float && negb (is_nan x).

(** The day number of the date [y]-[m]-[d], counted from 1 January 1970. *)
Definition civil_day (y m d : Z) : Z :=
  DayFromYear y + DayWithinYear (InLeapYear y) (m - 1) + d - 1.

(** The size [- n] is accepted, and the estimate without add-ons is below
    zero for it with each of the four multipliers. *)
Definition negative_estimates (n : Z) : bool :=
  quotable (- of_Z n)
  && forallb (fun t => (- of_Z n * 2.5 * multiplier t <? 0)%float)
       [residential; commercial; abandoned; construction].

(** The text of a quote, part by part: the fee sentences are there when
    their flags are set. *)
Definition quote_text (name : string) (formatted : text)
    (hasHazard hasLawn : bool) : text :=
  (units name ++ units ", your estimated cleanout cost is " ++ formatted
   ++ units "."
   ++ (if hasHazard
       then units " This includes a $50 hazardous waste handling fee."
       else [])
   ++ (if hasLawn
       then units " This includes our limited" ++ non_breaking_hyphen
            ++ units "time $99 lawn cut special."
       else [])
   ++ units " Final pricing may vary based on on" ++ non_breaking_hyphen
   ++ units "site assessment.")%list.

(** What the quote handlers leave when they refuse the input. *)
Definition quote_refused (ev : event) (doc : document) : outcome :=
  {| returned := Normal false; event_after := preventDefault ev;
     page := set_quoteResult doc
               (shown (units "Please provide all required fields.")) |}.

(** The message for a request outside the booking window. *)
Definition window_text : text :=
  (units "Selected date/time is outside our booking window (Mon" ++ en_dash
   ++ units "Fri 8:00 AM" ++ en_dash
   ++ units "5:00 PM). Please choose another time.")%list.

(** ** A page to try the handlers on *)

Definition typed (v : string) : control :=
  {| control_value := v; defaultValue := "" |}.

Definition empty_element : element := {| textContent := []; hidden := true |}.

Definition sample_page (c : Contact.form) (q : Quote.form) (s : Schedule.form) :
    document :=
  {| contactForm := Some c; formResponse := Some empty_element;
     quoteForm := Some q; quoteResult := Some empty_element;
     scheduleForm := Some s; scheduleResult := Some empty_element |}.

Definition sample_contact (n e m : string) : Contact.form :=
  {| Contact.name := typed n; Contact.email := typed e;
     Contact.message := typed m |}.

Definition sample_quote (n t s : string) (hz lw : option checkbox) : Quote.form :=
  {| Quote.name := typed n; Quote.type := typed t; Quote.size := typed s;
     Quote.hazardous := hz; Quote.lawn := lw |}.

Definition sample_schedule (n d t : string) : Schedule.form :=
  {| Schedule.name := typed n; Schedule.date := typed d;
     Schedule.time := typed t |}.

(** A page with none of the elements. *)
Definition empty_page : document :=
  {| contactForm := None; formResponse := None;
     quoteForm := None; quoteResult := None;
     scheduleForm := None; scheduleResult := None |}.

Definition contact_page (n e m : string) : document :=
  sample_page (sample_contact n e m) (sample_quote "" "" "" None None)
    (sample_schedule "" "" "").

Definition quote_page (q : Quote.form) : document :=
  sample_page (sample_contact "" "" "") q (sample_schedule "" "" "").

Definition schedule_page (n d t : string) : document :=
  sample_page (sample_contact "" "" "") (sample_quote "" "" "" None None)
    (sample_schedule n d t).

Definition box (b : bool) : option checkbox :=
  Some {| checked := b; defaultChecked := false |}.

Definition submit : event := {| defaultPrevented := false |}.

(** The text of a confirmation, part by part. *)
Definition confirmation_text (name : string) (formattedDate : text)
    (time : string) : text :=
  (units "Thank you, " ++ units name
   ++ units "! Your appointment request for " ++ formattedDate
   ++ units " at " ++ units time
   ++ units " has been received. We will contact you to confirm.")%list.

(** The three ways out of the schedule handlers when the form and the
    result element are there: a field is missing, the request is outside
    the window, the request is confirmed and the form reset. *)
Definition schedule_incomplete (ev : event) (doc : document)
    (form : Schedule.form) : outcome :=
  {| returned := Normal false; event_after := preventDefault ev;
     page := set_schedule doc form
               (shown (units "Please fill out your name, date and time.")) |}.

Definition schedule_refused (ev : event) (doc : document)
    (form : Schedule.form) : outcome :=
  {| returned := Normal false; event_after := preventDefault ev;
     page := set_schedule doc form (shown window_text) |}.

Definition schedule_confirmed (ev : event) (doc : document)
    (form : Schedule.form) (t : text) : outcome :=
  {| returned := Normal false; event_after := preventDefault ev;
     page := set_schedule doc (Schedule.reset form) (shown t) |}.

(** ** Checks on the guards of [isWithinAvailability] *)

(** On the day [k] and at an hour [h] other than 17, the first two guards
    decide, the same way as [8 <= h <= 16], and the third one does not look
    at the minutes. *)
Definition hour_decides (k h : Z) : bool :=
  let day := VNumber (of_Z k) in
  let hour := VNumber (of_Z h) in
  (h =? 17)
  || negb (js_lt day (VNumber 1) || js_gt day (VNumber 5))
     && Bool.eqb (negb (js_lt hour (VNumber 8) || js_gt hour (VNumber 17)))
          ((8 <=? h) && (h <=? 16))
     && negb (js_strict_eq hour (VNumber 17)).
(** * Properties of [calculateQuote] *)

Local Open Scope float_scope.

(** The scenarios of the specification. *)
Example quote_commercial : calculateQuote 1000 "commercial" false false = 3000.
Proof. reflexivity. Qed.

Example quote_abandoned_both_fees :
  calculateQuote 500 "abandoned" true true = 2024.
Proof. reflexivity. Qed.

(** Every enumerated key is an own property of [multipliers], found with
    the specification's multiplier. *)
Lemma Get_multipliers_key (t : propertyType) :
  Get multipliers (key t) = VNumber (multiplier t).
Proof. destruct t; reflexivity. Qed.

(** The multipliers of the table are all truthy, so [||] keeps them. *)
Lemma multiplier_truthy (t : propertyType) :
  ToBoolean (VNumber (multiplier t)) = true.
Proof. destruct t; reflexivity. Qed.

(** C1: for every size and every enumerated property type, the estimate
    without add-ons is [size * 2.5 * multiplier], with the multipliers 1.0,
    1.2, 1.5 and 0.8 of the table and the base rate 2.5. *)
Theorem calculateQuote_enumerated (size : float) (t : propertyType) :
  calculateQuote size (key t) false false = size * 2.5 * multiplier t.
Proof.
  unfold calculateQuote, js_or.
  rewrite Get_multipliers_key, multiplier_truthy.
  reflexivity.
Qed.

(** Two Numbers that the comparison [===] tells apart are different, as
    soon as one of them is equal to itself (is not [NaN]). *)
Lemma float_neq_l (x y : float) :
  PrimFloat.eqb x x = true -> PrimFloat.eqb x y = false -> x <> y.
Proof. intros Hx Hxy Heq. rewrite <- Heq in Hxy. congruence. Qed.

Lemma float_neq_r (x y : float) :
  PrimFloat.eqb y y = true -> PrimFloat.eqb x y = false -> x <> y.
Proof. intros Hy Hxy Heq. rewrite Heq in Hxy. congruence. Qed.

(** A key that is neither an own property of the table nor inherited
    resolves to the neutral multiplier. *)
Lemma effective_multiplier_unknown (type : string) :
  GetOwn multipliers type = None ->
  existsb (String.eqb type) ObjectPrototype = false ->
  effective_multiplier type = 1.0.
Proof.
  intros Hown Hproto. unfold effective_multiplier, Get.
  rewrite Hown, Hproto. reflexivity.
Qed.

(** An inherited name resolves to a built-in, which is truthy and converts
    to [NaN]. *)
Lemma effective_multiplier_inherited (type : string) :
  GetOwn multipliers type = None ->
  existsb (String.eqb type) ObjectPrototype = true ->
  effective_multiplier type = nan.
Proof.
  intros Hown Hproto. unfold effective_multiplier, Get.
  rewrite Hown, Hproto. reflexivity.
Qed.

(** An enumerated key resolves to its multiplier of the table. *)
Lemma effective_multiplier_key (t : propertyType) :
  effective_multiplier (key t) = multiplier t.
Proof.
  unfold effective_multiplier, js_or.
  now rewrite Get_multipliers_key, multiplier_truthy.
Qed.

Lemma calculateQuote_base (size : float) (type : string) :
  calculateQuote size type false false = size * 2.5 * effective_multiplier type.
Proof. reflexivity. Qed.

(** The fallback where it works: an unrecognized key that [Object.prototype]
    does not define gives [size * 2.5 * 1.0]. *)
Lemma calculateQuote_fallback (size : float) (type : string) :
  GetOwn multipliers type = None ->
  existsb (String.eqb type) ObjectPrototype = false ->
  calculateQuote size type false false = size * 2.5 * 1.0.
Proof.
  intros Hown Hproto.
  rewrite calculateQuote_base, effective_multiplier_unknown by assumption.
  reflexivity.
Qed.

Lemma calculateQuote_fallback_witness :
  calculateQuote 100 "unknown-type" false false = 100 * 2.5 * 1.0.
Proof. apply calculateQuote_fallback; reflexivity. Defined.

(** C6: the key ["toString"] is outside the enumerated set, yet the estimate
    is [NaN] and not [size * 2.5 * 1.0]: the lookup finds the inherited
    method, which is truthy, so the [|| 1.0] fallback does not apply. *)
Theorem calculateQuote_inherited_key :
  GetOwn multipliers "toString" = None /\
  calculateQuote 100 "toString" false false = nan /\
  calculateQuote 100 "toString" false false <> 100 * 2.5 * 1.0.
Proof.
  repeat split.
  apply float_neq_r; reflexivity.
Qed.

(** C4, as stated, fails: with size 0.11 and the commercial multiplier,
    adding 50 and then 99 rounds twice and ends one unit in the last place
    below adding 149 at once. *)
Lemma calculateQuote_both_flags_not_149 :
  calculateQuote 0.11 "commercial" true true = 149.32999999999998 /\
  calculateQuote 0.11 "commercial" false false + 149 = 149.33 /\
  calculateQuote 0.11 "commercial" true true
    <> calculateQuote 0.11 "commercial" false false + 149.
Proof.
  repeat split.
  apply float_neq_l; reflexivity.
Qed.

(** C4, amended: the hazard flag adds 50 and the lawn flag adds 99, each by
    one rounded addition, the hazard fee first; with both flags the estimate
    is [(base + 50) + 99]; and [estimate(500, "abandoned", true, true)] is
    2024. *)
Theorem calculateQuote_surcharges (size : float) (type : string) :
  calculateQuote size type true false = calculateQuote size type false false + 50 /\
  calculateQuote size type false true = calculateQuote size type false false + 99 /\
  calculateQuote size type true true = calculateQuote size type false false + 50 + 99 /\
  calculateQuote 500 "abandoned" true true = 2024.
Proof. repeat split. Qed.

(** ** Checking a finite range *)

Lemma forall_range_spec (f : Z -> bool) (count : nat) (from n : Z) :
  forall_range f count from = true ->
  (from <= n < from + Z.of_nat count)%Z ->
  f n = true.
Proof.
  revert from. induction count as [|count IH]; intros from Hall Hn; [lia|].
  cbn [forall_range] in Hall. apply andb_true_iff in Hall as [Hhere Hrest].
  destruct (Z.eq_dec n from) as [-> | Hne]; [assumption|].
  apply (IH (from + 1)%Z); [assumption | lia].
Qed.

Lemma both_flags_check : forall_range both_flags_agree (20 * 1000 + 1) 0 = true.
Proof. vm_compute. reflexivity. Qed.

(** On whole-number sizes up to 20000 and the enumerated types the two
    additions round as one: there the two fees do amount to 149. *)
Lemma calculateQuote_both_flags_whole_sizes (n : Z) (t : propertyType) :
  (0 <= n <= 20000)%Z ->
  (calculateQuote (of_Z n) (key t) true true
   =? calculateQuote (of_Z n) (key t) false false + 149) = true.
Proof.
  intros Hn.
  pose proof (forall_range_spec _ _ _ n both_flags_check ltac:(lia)) as Hall.
  unfold both_flags_agree in Hall. rewrite forallb_forall in Hall.
  unfold calculateQuote, js_or.
  rewrite Get_multipliers_key, multiplier_truthy. cbn [ToNumber].
  apply Hall. destruct t; cbn; auto.
Qed.

Lemma calculateQuote_both_flags_whole_sizes_witness :
  (calculateQuote (of_Z 1200) (key commercial) true true
   =? calculateQuote (of_Z 1200) (key commercial) false false + 149) = true.
Proof. apply calculateQuote_both_flags_whole_sizes. lia. Defined.

(** C8, as stated, fails: the revisions charge different base rates. *)
Lemma revisions_differ :
  Script.calculateQuote 1000 "commercial" = 600 /\
  calculateQuote 1000 "commercial" false false = 3000 /\
  Script.calculateQuote 1000 "commercial"
    <> calculateQuote 1000 "commercial" false false.
Proof.
  repeat split.
  apply float_neq_l; reflexivity.
Qed.

(** C8, amended: both revisions resolve the same multiplier for every key
    (same table, same fallback) and multiply it by the size and by their own
    base rate: 0.50 in [src/script.js], 2.5 in the later revision. *)
Theorem revisions_same_multiplier (size : float) (type : string) :
  Script.calculateQuote size type = size * 0.5 * effective_multiplier type /\
  calculateQuote size type false false = size * 2.5 * effective_multiplier type.
Proof. split; reflexivity. Qed.

(** An own property of the table is one of the four multipliers. *)
Lemma GetOwn_multipliers_cases (type : string) :
  GetOwn multipliers type = None \/
  exists t, GetOwn multipliers type = Some (multiplier t).
Proof.
  unfold multipliers. cbn [GetOwn].
  destruct (String.eqb "residential" type); [right; now exists residential|].
  destruct (String.eqb "commercial" type); [right; now exists commercial|].
  destruct (String.eqb "abandoned" type); [right; now exists abandoned|].
  destruct (String.eqb "construction" type); [right; now exists construction|].
  now left.
Qed.

(** With a key that is not inherited, a size of zero leaves the two fees. *)
Lemma calculateQuote_zero_size (type : string) :
  existsb (String.eqb type) ObjectPrototype = false ->
  calculateQuote 0 type true true = 149.
Proof.
  intros Hproto. unfold calculateQuote, Get. rewrite Hproto.
  destruct (GetOwn_multipliers_cases type) as [-> | [t ->]].
  - reflexivity.
  - destruct t; reflexivity.
Qed.

Lemma calculateQuote_zero_size_witness :
  calculateQuote 0 "abandoned" true true = 149.
Proof. apply calculateQuote_zero_size. reflexivity. Defined.

(** C9: with the inherited key ["constructor"] the returned value is [NaN],
    not an amount, and [estimate(0, type, true, true)] is not 149. *)
Theorem calculateQuote_zero_inherited :
  calculateQuote 0 "constructor" true true = nan /\
  calculateQuote 0 "constructor" true true <> 149.
Proof.
  split; [reflexivity|].
  apply float_neq_r; reflexivity.
Qed.

(** * Properties of [isWithinAvailability] *)

Local Open Scope Z_scope.

(** The scenarios of the specification; 10 June 2024 is a Monday and 8 June
    2024 a Saturday. *)
Example monday_0800 :
  isWithinAvailability 0 (VString "2024-06-10") (VString "08:00") = true.
Proof. reflexivity. Qed.

Example monday_1700 :
  isWithinAvailability 0 (VString "2024-06-10") (VString "17:00") = true.
Proof. reflexivity. Qed.

Example monday_1701 :
  isWithinAvailability 0 (VString "2024-06-10") (VString "17:01") = false.
Proof. reflexivity. Qed.

Example saturday_1000 :
  isWithinAvailability 0 (VString "2024-06-08") (VString "10:00") = false.
Proof. reflexivity. Qed.

Example monday_0759 :
  isWithinAvailability 0 (VString "2024-06-10") (VString "07:59") = false.
Proof. reflexivity. Qed.

(** Conversions of strings to Numbers. *)
Example StringToNumber_examples :
  StringToNumber "08" = 8%float /\ StringToNumber "" = 0%float /\
  StringToNumber " 12 " = 12%float /\ StringToNumber "1e3" = 1000%float /\
  StringToNumber "0x1F" = 31%float /\ StringToNumber "0.1" = 0.1%float /\
  StringToNumber "abc" = nan /\ StringToNumber "12px" = nan /\
  StringToNumber "-Infinity" = neg_infinity.
Proof. repeat split. Qed.

(** ** Splitting *)

Lemma split_nonempty (sep : ascii) (s : string) : split sep s <> [].
Proof.
  destruct s as [|c r]; cbn [split]; [discriminate|].
  destruct (Ascii.eqb c sep); [discriminate|].
  destruct (split sep r); discriminate.
Qed.

(** Splitting distributes over a separator between two strings. *)
Lemma split_app (sep : ascii) (a b : string) :
  split sep (a ++ String sep b) = (split sep a ++ split sep b)%list.
Proof.
  induction a as [|c r IH]; cbn [append split].
  - now rewrite Ascii.eqb_refl.
  - rewrite IH. destruct (Ascii.eqb c sep); [reflexivity|].
    pose proof (split_nonempty sep r) as Hne.
    destruct (split sep r); [contradiction|reflexivity].
Qed.

Lemma numbers_app (sep : ascii) (a b : string) :
  numbers sep (a ++ String sep b) = (numbers sep a ++ numbers sep b)%list.
Proof. unfold numbers. now rewrite split_app, !map_app. Qed.

Lemma numbers_nonempty (sep : ascii) (s : string) : numbers sep s <> [].
Proof.
  unfold numbers. pose proof (split_nonempty sep s).
  destruct (split sep s); [contradiction|discriminate].
Qed.

(** The first two elements of an array of two elements or more are not
    affected by what is appended to it. *)
Lemma index_app_two (a b c : list value) (i : nat) :
  a <> [] -> b <> [] -> (i < 2)%nat ->
  index ((a ++ b) ++ c) i = index (a ++ b) i.
Proof.
  intros Ha Hb Hi. unfold index. apply app_nth1.
  rewrite length_app.
  destruct a; [contradiction|]. destruct b; [contradiction|].
  cbn [length]. lia.
Qed.

(** ** The shape of the function *)

Section Shape.

Variable tza : Z.

(** On two strings nothing throws, and the verdict is that of the guards on
    the computed day and the first two parts of the time. *)
Lemma isWithinAvailability_strings (d t : string) :
  isWithinAvailability tza (VString d) (VString t)
  = guards (computedDay tza d)
      (index (numbers ":" t) 0) (index (numbers ":" t) 1).
Proof.
  unfold isWithinAvailability, guards, computedDay, numbers.
  cbn [call_split bind].
  repeat match goal with
         | |- context [if ?c then _ else _] => destruct c
         end; reflexivity.
Qed.

(** A date that is not a string makes [split] throw; the handler answers
    [false]. *)
Lemma date_not_string_rejected (d t : value) :
  (forall s, d <> VString s) -> isWithinAvailability tza d t = false.
Proof.
  intros Hd. unfold isWithinAvailability.
  destruct d; try reflexivity. now elim (Hd s).
Qed.

Lemma time_not_string_rejected (d t : value) :
  (forall s, t <> VString s) -> isWithinAvailability tza d t = false.
Proof.
  intros Ht. unfold isWithinAvailability.
  destruct d; try reflexivity.
  destruct t; try reflexivity. now elim (Ht s0).
Qed.

End Shape.

Lemma date_not_string_rejected_witness :
  isWithinAvailability 0 VUndefined (VString "10:00") = false.
Proof. apply date_not_string_rejected. discriminate. Defined.

Lemma time_not_string_rejected_witness :
  isWithinAvailability 0 (VString "2024-06-10") VNull = false.
Proof. apply time_not_string_rejected. discriminate. Defined.

(** ** Reading well-formed parts *)

Lemma decimal_to_float_integer (m : Z) : decimal_to_float m 0 = of_Z m.
Proof.
  unfold decimal_to_float. destruct (Z.eqb_spec m 0) as [-> | _].
  - reflexivity.
  - cbn [Z.leb Z.compare]. change (10 ^ 0) with 1. now rewrite Z.mul_1_r.
Qed.

Lemma reads_as_spec (s : string) (n : Z) :
  reads_as s n = true ->
  split "-" s = [s] /\ split ":" s = [s] /\
  StringToNumber s = of_Z n /\
  truncate (of_Z n) = Some n.
Proof.
  unfold reads_as, StringToNumber.
  destruct (split "-" s) as [|p [|]]; try discriminate.
  destruct (split ":" s) as [|q [|]]; try discriminate.
  destruct (read_literal s) as [| |neg|neg m e|]; try discriminate.
  destruct neg; try discriminate. destruct e; try discriminate.
  destruct (truncate (of_Z n)) as [k|]; rewrite ?andb_false_r;
    try discriminate.
  rewrite !andb_true_iff, !String.eqb_eq, !Z.eqb_eq.
  intros [[[-> ->] ->] ->]. cbn [literal_value].
  now rewrite decimal_to_float_integer.
Qed.

(** The parts [00] to [99] and [0000] to [9999], by exhaustion. *)
Lemma two_digits_check :
  forall_range (fun n => reads_as (two_digits n) n) 100 0 = true.
Proof. vm_compute. reflexivity. Qed.

Lemma four_digits_check :
  forall_range (fun n => reads_as (four_digits n) n) (100 * 100) 0 = true.
Proof. vm_compute. reflexivity. Qed.

(** The month argument [m - 1] of the constructor, for the months 1 to 12. *)
Lemma month_check :
  forall_range (fun m => match truncate (of_Z m - 1)%float with
                         | Some k => k =? m - 1
                         | None => false
                         end) 12 1 = true.
Proof. vm_compute. reflexivity. Qed.

(** The guards against the window, for every weekday and every minute of
    the day. *)
Lemma window_check :
  forall_range (fun k =>
    forall_range (fun h =>
      forall_range (fun m =>
        Bool.eqb (guards (VNumber (of_Z k)) (VNumber (of_Z h)) (VNumber (of_Z m)))
                 (in_window h m))
        60 0)
      24 0)
    5 1 = true.
Proof. vm_compute. reflexivity. Qed.

Lemma reads_as_two_digits (n : Z) :
  0 <= n < 100 -> reads_as (two_digits n) n = true.
Proof.
  intros Hn.
  apply (forall_range_spec _ _ _ n two_digits_check). lia.
Qed.

Lemma reads_as_four_digits (n : Z) :
  0 <= n < 10000 -> reads_as (four_digits n) n = true.
Proof.
  intros Hn.
  apply (forall_range_spec _ _ _ n four_digits_check). lia.
Qed.

(** A part made of digits alone converts to its value. *)
Lemma numbers_reads_as (sep : ascii) (s : string) (n : Z) :
  sep = "-"%char \/ sep = ":"%char ->
  reads_as s n = true ->
  numbers sep s = [VNumber (of_Z n)].
Proof.
  intros Hsep Hs. apply reads_as_spec in Hs as (Hd & Hc & Hn & _).
  unfold numbers.
  destruct Hsep as [-> | ->]; [rewrite Hd | rewrite Hc];
    cbn [map]; unfold Number; cbn [ToNumber]; now rewrite Hn.
Qed.

(** The parts of a time [HH:MM]. *)
Lemma numbers_clock (h m : Z) :
  0 <= h < 100 -> 0 <= m < 100 ->
  numbers ":" (clock h m) = [VNumber (of_Z h); VNumber (of_Z m)].
Proof.
  intros Hh Hm. unfold clock.
  change (":" ++ two_digits m)%string with (String ":" (two_digits m)).
  rewrite numbers_app.
  rewrite (numbers_reads_as ":" _ h), (numbers_reads_as ":" _ m);
    auto using reads_as_two_digits.
Qed.

(** On a weekday, the guards accept exactly the minutes of the window. *)
Lemma guards_window (k h m : Z) :
  1 <= k <= 5 -> 0 <= h < 24 -> 0 <= m < 60 ->
  guards (VNumber (of_Z k)) (VNumber (of_Z h)) (VNumber (of_Z m))
  = in_window h m.
Proof.
  intros Hk Hh Hm.
  pose proof (forall_range_spec _ _ _ k window_check ltac:(lia)) as Hall.
  cbv beta in Hall.
  apply forall_range_spec with (n := h) in Hall; [|lia].
  cbv beta in Hall.
  apply forall_range_spec with (n := m) in Hall; [|lia].
  now apply eqb_prop.
Qed.

(** ** The booking window *)

(** The time guards: on a date whose computed day is Monday to Friday, a
    time [HH:MM] of the day is accepted exactly from 08:00 to 17:00, both
    included: 08:00 and 17:00 are accepted, 16:59 is, 17:01 to 17:59 are
    not, and no hour below 8 or above 17 is. *)
Lemma weekday_window (tza : Z) (d : string) (k h m : Z) :
  computedDay tza d = VNumber (of_Z k) -> 1 <= k <= 5 ->
  0 <= h < 24 -> 0 <= m < 60 ->
  isWithinAvailability tza (VString d) (VString (clock h m)) = true
  <-> 8 * 60 <= h * 60 + m <= 17 * 60.
Proof.
  intros Hday Hk Hh Hm.
  rewrite isWithinAvailability_strings, Hday, numbers_clock by lia.
  cbn [index nth]. rewrite guards_window by assumption.
  unfold in_window. rewrite andb_true_iff, !Z.leb_le. reflexivity.
Qed.

Lemma weekday_window_witness :
  isWithinAvailability 0 (VString "2024-06-10") (VString (clock 17 0)) = true
  <-> 8 * 60 <= 17 * 60 + 0 <= 17 * 60.
Proof.
  apply (weekday_window 0 "2024-06-10" 1 17 0).
  - reflexivity.
  - lia.
  - lia.
  - lia.
Defined.

(** C5: when the computed day is Saturday (6) or Sunday (0) the verdict is
    [false], whatever the time argument is. *)
Theorem weekend_rejected (tza : Z) (d : string) (t : value) (k : Z) :
  computedDay tza d = VNumber (of_Z k) -> k = 0 \/ k = 6 ->
  isWithinAvailability tza (VString d) t = false.
Proof.
  intros Hday Hk.
  destruct t as [| | | |t|];
    try (apply time_not_string_rejected; discriminate).
  rewrite isWithinAvailability_strings, Hday.
  destruct Hk as [-> | ->]; reflexivity.
Qed.

Lemma weekend_rejected_witness :
  isWithinAvailability 0 (VString "2024-06-08") (VString "10:00") = false.
Proof.
  apply (weekend_rejected 0 "2024-06-08" (VString "10:00") 6).
  - reflexivity.
  - right. reflexivity.
Defined.

(** C10: whatever follows the second part of the time string is ignored:
    a time [HH:MM] and the same time with further colon-separated parts
    get the same verdict, on every date. *)
Theorem extra_time_parts_ignored (tza : Z) (d : value) (hh mm extra : string) :
  isWithinAvailability tza d (VString (hh ++ ":" ++ mm ++ ":" ++ extra))
  = isWithinAvailability tza d (VString (hh ++ ":" ++ mm)).
Proof.
  destruct d as [| | | |d|];
    try (rewrite !date_not_string_rejected by discriminate; reflexivity).
  rewrite !isWithinAvailability_strings.
  change (":" ++ mm ++ ":" ++ extra)%string
    with (String ":" (mm ++ String ":" extra)).
  change (":" ++ mm)%string with (String ":" mm).
  rewrite !numbers_app, app_assoc.
  rewrite !index_app_two by (auto using numbers_nonempty).
  reflexivity.
Qed.

(** Seconds after 17:00 do not matter. *)
Example seconds_ignored :
  isWithinAvailability 0 (VString "2024-06-10") (VString "17:00:45") = true.
Proof. reflexivity. Qed.

(** ** Malformed input *)

(** C2: a date with no numeric part gives an invalid [Date], whose
    [getDay()] is [NaN]; both comparisons of the weekday guard are false on
    [NaN], so the date passes and a valid time is accepted.  In the same way
    a time with no numeric part passes the hour guards on a weekday. *)
Theorem malformed_input_accepted :
  (forall tza, isWithinAvailability tza (VString "not-a-date") (VString "10:00") = true) /\
  isWithinAvailability 0 (VString "2024-06-10") (VString "ab:cd") = true.
Proof. split; [intros tza|]; reflexivity. Qed.

(** An invalid date is treated as a weekday: whenever the computed day is
    [NaN], the verdict on a time [HH:MM] is the one a Monday would get. *)
Lemma invalid_date_check :
  forall_range (fun h =>
    forall_range (fun m =>
      Bool.eqb (guards (VNumber nan) (VNumber (of_Z h)) (VNumber (of_Z m)))
               (in_window h m))
      60 0)
    24 0 = true.
Proof. vm_compute. reflexivity. Qed.

Lemma invalid_date_treated_as_weekday (tza : Z) (d : string) (h m : Z) :
  computedDay tza d = VNumber nan ->
  0 <= h < 24 -> 0 <= m < 60 ->
  isWithinAvailability tza (VString d) (VString (clock h m)) = in_window h m.
Proof.
  intros Hday Hh Hm.
  rewrite isWithinAvailability_strings, Hday, numbers_clock by lia.
  cbn [index nth].
  pose proof (forall_range_spec _ _ _ h invalid_date_check ltac:(lia)) as Hall.
  cbv beta in Hall.
  apply forall_range_spec with (n := m) in Hall; [|lia].
  now apply eqb_prop.
Qed.

Lemma invalid_date_treated_as_weekday_witness :
  isWithinAvailability 0 (VString "soon") (VString (clock 9 30))
  = in_window 9 30.
Proof.
  apply (invalid_date_treated_as_weekday 0 "soon" 9 30).
  - reflexivity.
  - lia.
  - lia.
Defined.

(** A day past the end of its month does not make the date invalid: the
    constructor carries it over, 30 February 2024 being 1 March 2024, a
    Friday. *)
Example day_out_of_range_carried :
  computedDay 0 "2024-02-30" = computedDay 0 "2024-03-01" /\
  isWithinAvailability 0 (VString "2024-02-30") (VString "10:00") = true.
Proof. split; reflexivity. Qed.

(** ** The day of the week *)

Lemma InLeapYear_spec (y : Z) :
  InLeapYear y = true
  <-> y mod 4 = 0 /\ (y mod 100 <> 0 \/ y mod 400 = 0).
Proof.
  unfold InLeapYear.
  rewrite andb_true_iff, orb_true_iff, negb_true_iff, !Z.eqb_eq, Z.eqb_neq.
  reflexivity.
Qed.

(** The day number the constructor computes falls on the day of the week
    the calendar gives, in every year and for every offset from the first
    of the month. *)
Lemma day_number_weekday (y m d : Z) :
  1 <= m <= 12 ->
  (DayFromYear y + DayWithinYear (InLeapYear y) (m - 1) + d - 1 + 4) mod 7
  = calendar_weekday y m d.
Proof.
  intros Hm.
  assert (Hcases : m = 1 \/ m = 2 \/ m = 3 \/ m = 4 \/ m = 5 \/ m = 6 \/
                   m = 7 \/ m = 8 \/ m = 9 \/ m = 10 \/ m = 11 \/ m = 12)
    by lia.
  unfold calendar_weekday, DayFromYear.
  destruct (InLeapYear y) eqn:Hleap.
  - apply InLeapYear_spec in Hleap.
    repeat (destruct Hcases as [-> | Hcases]); try subst m;
      cbn [DayWithinYear Z.sub Z.add Z.opp Z.pos_sub Pos.pred_double Z.leb
           Z.compare Pos.compare Pos.compare_cont Pos.add Pos.succ Pos.add_carry];
      Z.div_mod_to_equations; lia.
  - assert (Hno : ~ (y mod 4 = 0 /\ (y mod 100 <> 0 \/ y mod 400 = 0)))
      by (rewrite <- InLeapYear_spec; congruence).
    repeat (destruct Hcases as [-> | Hcases]); try subst m;
      cbn [DayWithinYear Z.sub Z.add Z.opp Z.pos_sub Pos.pred_double Z.leb
           Z.compare Pos.compare Pos.compare_cont Pos.add Pos.succ Pos.add_carry];
      Z.div_mod_to_equations; lia.
Qed.

(** The first of a month of the years 100 to 9999 is a time value. *)
Lemma first_of_month_in_range (y mn : Z) :
  100 <= y <= 9999 -> 0 <= mn <= 11 ->
  Z.abs ((DayFromYear y + DayWithinYear (InLeapYear y) mn) * msPerDay)
  <= maxTime - 100 * msPerDay.
Proof.
  intros Hy Hmn.
  assert (0 <= DayWithinYear (InLeapYear y) mn <= 335).
  { assert (Hcases : mn = 0 \/ mn = 1 \/ mn = 2 \/ mn = 3 \/ mn = 4 \/ mn = 5 \/
                     mn = 6 \/ mn = 7 \/ mn = 8 \/ mn = 9 \/ mn = 10 \/ mn = 11)
      by lia.
    repeat (destruct Hcases as [-> | Hcases]); try subst mn;
      destruct (InLeapYear y); cbn; lia. }
  unfold DayFromYear, msPerDay, maxTime.
  Z.div_mod_to_equations. lia.
Qed.

(** The parts of a date [YYYY-MM-DD]. *)
Lemma numbers_iso_date (y m d : Z) :
  0 <= y < 10000 -> 0 <= m < 100 -> 0 <= d < 100 ->
  numbers "-" (iso_date y m d)
  = [VNumber (of_Z y); VNumber (of_Z m); VNumber (of_Z d)].
Proof.
  intros Hy Hm Hd. unfold iso_date.
  change ("-" ++ two_digits m ++ "-" ++ two_digits d)%string
    with (String "-" (two_digits m ++ String "-" (two_digits d))).
  rewrite !numbers_app.
  rewrite (numbers_reads_as "-" _ y), (numbers_reads_as "-" _ m),
    (numbers_reads_as "-" _ d);
    auto using reads_as_two_digits, reads_as_four_digits.
Qed.

Lemma truncate_month (m : Z) :
  1 <= m <= 12 -> truncate (of_Z m - 1)%float = Some (m - 1).
Proof.
  intros Hm.
  pose proof (forall_range_spec _ _ _ m month_check ltac:(lia)) as Hall.
  cbv beta in Hall.
  destruct (truncate (of_Z m - 1)%float); [|discriminate].
  apply Z.eqb_eq in Hall. now subst.
Qed.

(** The computed day of a date [YYYY-MM-DD] is the calendar day of the week
    of that month and day in the year the constructor uses, whatever the
    offset of local time from UTC. *)
Theorem computedDay_iso_date (tza y m d : Z) :
  Z.abs tza <= msPerDay ->
  0 <= y < 10000 -> 1 <= m <= 12 -> 0 <= d < 100 ->
  computedDay tza (iso_date y m d)
  = VNumber (of_Z (calendar_weekday (constructor_year y) m d)).
Proof.
  intros Htza Hy Hm Hd.
  unfold computedDay. rewrite numbers_iso_date by lia.
  cbn [index nth]. unfold Date_new, js_sub. cbn [ToNumber].
  destruct (reads_as_spec _ _ (reads_as_four_digits y Hy)) as (_ & _ & _ & Hty).
  destruct (reads_as_spec _ _ (reads_as_two_digits d Hd)) as (_ & _ & _ & Htd).
  unfold MakeFullYear. rewrite Hty, Htd, truncate_month by assumption.
  fold (constructor_year y).
  set (yr := constructor_year y).
  assert (Hyr : 100 <= yr <= 9999).
  { unfold yr, constructor_year.
    destruct (Z.leb_spec 0 y), (Z.leb_spec y 99); cbn [andb]; lia. }
  unfold MakeDay.
  replace ((m - 1) / 12) with 0 by (symmetry; apply Z.div_small; lia).
  rewrite Z.mod_small, Z.add_0_r by lia.
  pose proof (first_of_month_in_range yr (m - 1) Hyr ltac:(lia)) as Hfirst.
  set (first := DayFromYear yr + DayWithinYear (InLeapYear yr) (m - 1)) in *.
  unfold msPerDay, maxTime in *.
  destruct (Z.leb_spec (Z.abs (first * 86400000)) 8640000000000000); [|lia].
  unfold TimeClip, UTC, MakeDate, maxTime, msPerDay.
  destruct (Z.leb_spec (Z.abs ((first + d - 1) * 86400000 + 0 - tza))
              8640000000000000); [|lia].
  cbn [getDay]. unfold LocalTime, WeekDay, Day, msPerDay.
  replace ((first + d - 1) * 86400000 + 0 - tza + tza)
    with ((first + d - 1) * 86400000) by lia.
  rewrite Z.div_mul by lia.
  unfold first. rewrite day_number_weekday by lia. reflexivity.
Qed.

Lemma computedDay_iso_date_witness :
  computedDay (-18000000) (iso_date 2024 6 10)
  = VNumber (of_Z (calendar_weekday (constructor_year 2024) 6 10)).
Proof.
  apply (computedDay_iso_date (-18000000) 2024 6 10);
    unfold msPerDay; lia.
Defined.

(** From the year 100 on, the computed day is the calendar day of the week
    of the date as written. *)
Corollary local_calendar_weekday (tza y m d : Z) :
  Z.abs tza <= msPerDay ->
  100 <= y < 10000 -> 1 <= m <= 12 -> 0 <= d < 100 ->
  computedDay tza (iso_date y m d) = VNumber (of_Z (calendar_weekday y m d)).
Proof.
  intros Htza Hy Hm Hd. rewrite computedDay_iso_date by lia.
  unfold constructor_year.
  destruct (Z.leb_spec y 99); [lia|].
  now rewrite andb_false_r.
Qed.

Lemma local_calendar_weekday_witness :
  computedDay 3600000 (iso_date 2024 6 10)
  = VNumber (of_Z (calendar_weekday 2024 6 10)).
Proof.
  apply (local_calendar_weekday 3600000 2024 6 10); unfold msPerDay; lia.
Defined.

(** C7: for the date 0001-01-05 the constructor takes the year for 1901:
    the computed day is Saturday (6), while 5 January of the year 1 is a
    Friday (5) in the calendar, and the date is refused. *)
Theorem two_digit_year_weekday :
  iso_date 1 1 5 = "0001-01-05"%string /\
  computedDay 0 "0001-01-05" = VNumber 6 /\
  calendar_weekday 1 1 5 = 5 /\
  isWithinAvailability 0 (VString "0001-01-05") (VString "10:00") = false.
Proof. repeat split. Qed.

(** ** The window on calendar weekdays *)

(** From the year 100 on, a date that the calendar puts on Monday to Friday
    has the window of 08:00 to 17:00, both included. *)
Lemma calendar_weekday_window (tza y m d h mi : Z) :
  Z.abs tza <= msPerDay ->
  100 <= y < 10000 -> 1 <= m <= 12 -> 0 <= d < 100 ->
  1 <= calendar_weekday y m d <= 5 ->
  0 <= h < 24 -> 0 <= mi < 60 ->
  isWithinAvailability tza (VString (iso_date y m d)) (VString (clock h mi))
  = true
  <-> 8 * 60 <= h * 60 + mi <= 17 * 60.
Proof.
  intros Htza Hy Hm Hd Hk Hh Hmi.
  refine (weekday_window tza _ (calendar_weekday y m d) h mi _ Hk Hh Hmi).
  rewrite computedDay_iso_date by lia.
  unfold constructor_year.
  destruct (Z.leb_spec y 99); [lia|].
  now rewrite andb_false_r.
Qed.

Lemma calendar_weekday_window_witness :
  isWithinAvailability 3600000 (VString (iso_date 2024 6 14))
    (VString (clock 16 59)) = true
  <-> 8 * 60 <= 16 * 60 + 59 <= 17 * 60.
Proof.
  apply (calendar_weekday_window 3600000 2024 6 14 16 59);
    try (unfold msPerDay; lia).
  vm_compute. split; discriminate.
Defined.

(** C3: the window is not kept on every weekday date.  5 January of the
    year 1 is a Friday in the calendar, and on it no time is accepted, 08:00
    and 17:00 no more than any other: the constructor takes the year for
    1901, where the day is a Saturday.  This holds for every offset of local
    time of at most a day. *)
Theorem weekday_date_refused (tza : Z) (t : value) :
  Z.abs tza <= msPerDay ->
  iso_date 1 1 5 = "0001-01-05"%string /\
  calendar_weekday 1 1 5 = 5 /\
  isWithinAvailability tza (VString "0001-01-05") t = false.
Proof.
  intros Htza. repeat split.
  destruct t as [| | | |t|];
    try (apply time_not_string_rejected; discriminate).
  rewrite isWithinAvailability_strings.
  change "0001-01-05"%string with (iso_date 1 1 5).
  rewrite computedDay_iso_date by lia.
  reflexivity.
Qed.

Lemma weekday_date_refused_witness :
  iso_date 1 1 5 = "0001-01-05"%string /\
  calendar_weekday 1 1 5 = 5 /\
  isWithinAvailability (-18000000) (VString "0001-01-05") (VString "08:00")
  = false.
Proof.
  apply (weekday_date_refused (-18000000) (VString "08:00")).
  unfold msPerDay. lia.
Defined.

(** * Properties of the form handlers *)

Local Open Scope string_scope.
Local Open Scope Z_scope.

(** ** Trimming *)

Lemma trim_start_blank (s : string) : blank s = true -> trim_start s = "".
Proof.
  induction s as [|c r IH]; cbn [blank trim_start]; [reflexivity|].
  intros H. apply andb_true_iff in H as [Hc Hr]. now rewrite Hc, IH.
Qed.

Lemma trim_end_blank (s : string) : blank s = true -> trim_end s = "".
Proof.
  induction s as [|c r IH]; cbn [blank trim_end]; [reflexivity|].
  intros H. apply andb_true_iff in H as [Hc Hr]. now rewrite IH, Hc.
Qed.

(** What [trim_start] leaves of a string that is not blank starts with a
    code unit that is not white space. *)
Lemma trim_start_not_blank (s : string) :
  blank s = false ->
  exists c r, trim_start s = String c r /\ is_white_space c = false.
Proof.
  induction s as [|c r IH]; cbn [blank trim_start]; [discriminate|].
  destruct (is_white_space c) eqn:Hc; cbn [andb]; intros H.
  - exact (IH H).
  - now exists c, r.
Qed.

Lemma trim_end_keeps_head (c : ascii) (r : string) :
  is_white_space c = false -> trim_end (String c r) <> "".
Proof.
  intros Hc. cbn [trim_end]. destruct (trim_end r); [rewrite Hc|]; discriminate.
Qed.

(** Trimming leaves nothing exactly of the blank strings. *)
Lemma trim_empty_iff (s : string) : trim s = "" <-> blank s = true.
Proof.
  unfold trim. split.
  - destruct (blank s) eqn:Hb; [reflexivity|]. intros H.
    destruct (trim_start_not_blank s Hb) as (c & r & Heq & Hc).
    rewrite Heq in H. now apply trim_end_keeps_head in H.
  - intros Hb. now rewrite trim_start_blank.
Qed.

Lemma truthy_trim (s : string) : truthy (trim s) = negb (blank s).
Proof.
  unfold truthy, ToBoolean. f_equal.
  destruct (blank s) eqn:Hb.
  - apply trim_empty_iff in Hb. now rewrite Hb.
  - apply String.eqb_neq. intros H. apply trim_empty_iff in H. congruence.
Qed.

Lemma blank_app (a b : string) : blank (a ++ b) = blank a && blank b.
Proof.
  induction a as [|c r IH]; cbn [append blank]; [reflexivity|].
  now rewrite IH, andb_assoc.
Qed.

Lemma trim_start_app_blank (a s : string) :
  blank a = true -> trim_start (a ++ s) = trim_start s.
Proof.
  induction a as [|c r IH]; cbn [append blank trim_start]; [reflexivity|].
  intros H. apply andb_true_iff in H as [Hc Hr]. now rewrite Hc, IH.
Qed.

Lemma trim_start_app_not_blank (s b : string) :
  blank s = false -> trim_start (s ++ b) = trim_start s ++ b.
Proof.
  induction s as [|c r IH]; cbn [append blank trim_start]; [discriminate|].
  destruct (is_white_space c); cbn [andb]; intros H; [exact (IH H)|reflexivity].
Qed.

Lemma trim_end_app_blank (s b : string) :
  blank b = true -> trim_end (s ++ b) = trim_end s.
Proof.
  intros Hb. induction s as [|c r IH]; cbn [append trim_end].
  - now apply trim_end_blank.
  - now rewrite IH.
Qed.

(** White space around a string does not change what trimming leaves. *)
Lemma trim_padded (s s' : string) : padded s s' -> trim s' = trim s.
Proof.
  intros (a & b & Ha & Hb & ->). unfold trim.
  rewrite trim_start_app_blank by assumption.
  destruct (blank s) eqn:Hs.
  - rewrite !trim_start_blank; [reflexivity|assumption|].
    now rewrite blank_app, Hs, Hb.
  - rewrite trim_start_app_not_blank by assumption.
    now apply trim_end_app_blank.
Qed.

(** ** [handleSubmit] *)

Section ContactForm.

Variables (ev : event) (doc : document) (form : Contact.form) (el : element).
Hypothesis Hform : contactForm doc = Some form.
Hypothesis Hel : formResponse doc = Some el.

Let name := control_value (Contact.name form).
Let email := control_value (Contact.email form).
Let message := control_value (Contact.message form).

(** The two ways out of the handler when the form and the response element
    are there. *)
Lemma handleSubmit_outcome :
  handleSubmit ev doc =
  if blank name || blank email || blank message
  then {| returned := Normal false; event_after := preventDefault ev;
          page := set_contact doc form
                    (shown (units "Please complete all fields.")) |}
  else {| returned := Normal false; event_after := preventDefault ev;
          page := set_contact doc (Contact.reset form)
                    (shown (units "Thank you, " ++ units (trim name)
                            ++ units "! Your message has been sent.")%list) |}.
Proof.
  unfold handleSubmit. rewrite Hform, Hel, !truthy_trim.
  fold name email message.
  destruct (blank name), (blank email), (blank message); reflexivity.
Qed.

End ContactForm.

(** A contact field left empty or filled with white space only makes the
    handler ask for all fields, and every field stays as typed. *)
Theorem handleSubmit_blank_field (ev : event) (doc : document)
    (form : Contact.form) (el : element) :
  contactForm doc = Some form -> formResponse doc = Some el ->
  blank (control_value (Contact.name form)) = true
  \/ blank (control_value (Contact.email form)) = true
  \/ blank (control_value (Contact.message form)) = true ->
  handleSubmit ev doc =
  {| returned := Normal false; event_after := preventDefault ev;
     page := set_contact doc form
               (shown (units "Please complete all fields.")) |}.
Proof.
  intros Hform Hel Hblank.
  rewrite (handleSubmit_outcome ev doc form el Hform Hel).
  destruct Hblank as [-> | [-> | ->]]; rewrite ?orb_true_r; reflexivity.
Qed.

Lemma handleSubmit_blank_field_witness :
  handleSubmit submit
    (contact_page "Ann" "   " "Hello")
  = {| returned := Normal false; event_after := preventDefault submit;
       page := set_contact
                 (contact_page "Ann" "   " "Hello")
                 (sample_contact "Ann" "   " "Hello")
                 (shown (units "Please complete all fields.")) |}.
Proof.
  apply (handleSubmit_blank_field submit _ (sample_contact "Ann" "   " "Hello")
           empty_element).
  - reflexivity.
  - reflexivity.
  - right. left. reflexivity.
Defined.

(** When each contact field holds something else than white space, the
    handler thanks the visitor by the trimmed name and resets the form. *)
Theorem handleSubmit_thanks (ev : event) (doc : document)
    (form : Contact.form) (el : element) :
  contactForm doc = Some form -> formResponse doc = Some el ->
  blank (control_value (Contact.name form)) = false ->
  blank (control_value (Contact.email form)) = false ->
  blank (control_value (Contact.message form)) = false ->
  handleSubmit ev doc =
  {| returned := Normal false; event_after := preventDefault ev;
     page := set_contact doc (Contact.reset form)
               (shown (units "Thank you, "
                       ++ units (trim (control_value (Contact.name form)))
                       ++ units "! Your message has been sent.")%list) |}.
Proof.
  intros Hform Hel Hn He Hm.
  rewrite (handleSubmit_outcome ev doc form el Hform Hel), Hn, He, Hm.
  reflexivity.
Qed.

Lemma handleSubmit_thanks_witness :
  handleSubmit submit
    (contact_page "  Ann " "ann@example.org" "Hello")
  = {| returned := Normal false; event_after := preventDefault submit;
       page := set_contact
                 (contact_page "  Ann " "ann@example.org" "Hello")
                 (sample_contact "" "" "")
                 (shown (units "Thank you, Ann! Your message has been sent.")) |}.
Proof.
  apply (handleSubmit_thanks submit _
           (sample_contact "  Ann " "ann@example.org" "Hello") empty_element);
    reflexivity.
Defined.

(** White space typed around the contact fields never changes the
    response. *)
Theorem handleSubmit_padding (ev : event) (doc doc' : document)
    (form form' : Contact.form) (el el' : element) :
  contactForm doc = Some form -> formResponse doc = Some el ->
  contactForm doc' = Some form' -> formResponse doc' = Some el' ->
  padded (control_value (Contact.name form)) (control_value (Contact.name form')) ->
  padded (control_value (Contact.email form)) (control_value (Contact.email form')) ->
  padded (control_value (Contact.message form))
         (control_value (Contact.message form')) ->
  formResponse (page (handleSubmit ev doc'))
  = formResponse (page (handleSubmit ev doc)).
Proof.
  intros Hform Hel Hform' Hel' Hn He Hm.
  unfold handleSubmit. rewrite Hform, Hel, Hform', Hel'.
  rewrite (trim_padded _ _ Hn), (trim_padded _ _ He), (trim_padded _ _ Hm).
  destruct (truthy _ && truthy _ && truthy _); reflexivity.
Qed.

Lemma handleSubmit_padding_witness :
  formResponse (page (handleSubmit submit
    (contact_page " Ann " "ann@example.org " " Hello")))
  = formResponse (page (handleSubmit submit
    (contact_page "Ann" "ann@example.org" "Hello"))).
Proof.
  apply (handleSubmit_padding submit _ _
           (sample_contact "Ann" "ann@example.org" "Hello")
           (sample_contact " Ann " "ann@example.org " " Hello")
           empty_element empty_element); try reflexivity.
  - exists " ", " ". repeat split.
  - exists "", " ". repeat split.
  - exists " ", "". repeat split.
Defined.

(** Without the form or without the response element the handler changes
    nothing on the page and does not throw. *)
Theorem handleSubmit_missing_element (ev : event) (doc : document) :
  contactForm doc = None \/ formResponse doc = None ->
  handleSubmit ev doc =
  {| returned := Normal false; event_after := preventDefault ev; page := doc |}.
Proof.
  intros [H | H]; unfold handleSubmit; rewrite H;
    [|destruct (contactForm doc)]; reflexivity.
Qed.

Lemma handleSubmit_missing_element_witness :
  handleSubmit submit empty_page
  = {| returned := Normal false; event_after := preventDefault submit;
       page := empty_page |}.
Proof. apply handleSubmit_missing_element. left. reflexivity. Defined.

(** After a message was sent the form is back to its defaults: with a
    default that is blank, submitting again asks for all fields. *)
Theorem handleSubmit_twice (ev ev' : event) (doc : document)
    (form : Contact.form) (el : element) :
  contactForm doc = Some form -> formResponse doc = Some el ->
  blank (control_value (Contact.name form)) = false ->
  blank (control_value (Contact.email form)) = false ->
  blank (control_value (Contact.message form)) = false ->
  blank (defaultValue (Contact.name form)) = true
  \/ blank (defaultValue (Contact.email form)) = true
  \/ blank (defaultValue (Contact.message form)) = true ->
  page (handleSubmit ev' (page (handleSubmit ev doc)))
  = set_contact doc (Contact.reset form)
      (shown (units "Please complete all fields.")).
Proof.
  intros Hform Hel Hn He Hm Hdefault.
  rewrite (handleSubmit_outcome ev doc form el Hform Hel), Hn, He, Hm.
  cbn [orb page].
  match goal with
  | |- context [set_contact doc (Contact.reset form) ?e] => set (thanks := e)
  end.
  rewrite (handleSubmit_outcome ev' (set_contact doc (Contact.reset form) thanks)
             (Contact.reset form) thanks eq_refl eq_refl).
  cbn [Contact.reset Contact.name Contact.email Contact.message
       reset_control control_value].
  destruct Hdefault as [-> | [-> | ->]]; rewrite ?orb_true_r; reflexivity.
Qed.

Lemma handleSubmit_twice_witness :
  page (handleSubmit submit (page (handleSubmit submit
    (contact_page "Ann" "ann@example.org" "Hello"))))
  = set_contact
      (contact_page "Ann" "ann@example.org" "Hello")
      (Contact.reset (sample_contact "Ann" "ann@example.org" "Hello"))
      (shown (units "Please complete all fields.")).
Proof.
  apply (handleSubmit_twice submit submit _
           (sample_contact "Ann" "ann@example.org" "Hello") empty_element);
    try reflexivity.
  left. reflexivity.
Defined.

(** ** [handleQuote] *)

(** The test of the quote handlers on the three inputs. *)
Lemma quote_condition (name type : string) (size : float) :
  negb (truthy (trim name)) || negb (truthy type)
  || negb (ToBoolean (VNumber size)) || is_nan size
  = blank name || String.eqb type "" || negb (quotable size).
Proof.
  rewrite truthy_trim. unfold truthy, quotable, ToBoolean.
  destruct (blank name), (String.eqb type ""), (PrimFloat.eqb size 0),
    (is_nan size); reflexivity.
Qed.

(** The text built by successive [+=] is the text of the quote. *)
Lemma detail_quote_text (name : string) (formatted : text) (hz lw : bool) :
  (let detail :=
     template [units name; units ", your estimated cleanout cost is ";
               formatted; units "."] in
   let detail :=
     if hz
     then template [detail;
                    units " This includes a $50 hazardous waste handling fee."]
     else detail in
   let detail :=
     if lw
     then template [detail; units " This includes our limited";
                    non_breaking_hyphen; units "time $99 lawn cut special."]
     else detail in
   template [detail; units " Final pricing may vary based on on";
             non_breaking_hyphen; units "site assessment."])
  = quote_text name formatted hz lw.
Proof.
  unfold template, quote_text.
  destruct hz, lw; cbn [concat]; rewrite ?app_nil_r, <- ?app_assoc;
    reflexivity.
Qed.

Section QuoteForm.

Variable toLocaleString : float -> text.
Variables (ev : event) (doc : document) (form : Quote.form) (el : element).
Hypothesis Hform : quoteForm doc = Some form.
Hypothesis Hel : quoteResult doc = Some el.

Let name := control_value (Quote.name form).
Let type := control_value (Quote.type form).
Let size := parseFloat (control_value (Quote.size form)).
Let hasHazard := box_checked (Quote.hazardous form).
Let hasLawn := box_checked (Quote.lawn form).

Lemma handleQuote_outcome :
  handleQuote toLocaleString ev doc =
  if blank name || String.eqb type "" || negb (quotable size)
  then quote_refused ev doc
  else {| returned := Normal false; event_after := preventDefault ev;
          page := set_quoteResult doc
                    (shown (quote_text (trim name)
                              (toLocaleString
                                 (calculateQuote size type hasHazard hasLawn))
                              hasHazard hasLawn)) |}.
Proof.
  unfold handleQuote. rewrite Hform.
  fold name type size hasHazard hasLawn.
  rewrite quote_condition.
  destruct (blank name || String.eqb type "" || negb (quotable size));
    unfold show_quote; rewrite Hel; [reflexivity|].
  now rewrite detail_quote_text.
Qed.

Lemma Script_handleQuote_outcome :
  ScriptHandlers.handleQuote toLocaleString ev doc =
  if blank name || String.eqb type "" || negb (quotable size)
  then quote_refused ev doc
  else {| returned := Normal false; event_after := preventDefault ev;
          page := set_quoteResult doc
                    (shown (units (trim name)
                            ++ units ", your estimated cleanout cost is "
                            ++ toLocaleString (Script.calculateQuote size type)
                            ++ units ". This price may vary based on on"
                            ++ non_breaking_hyphen
                            ++ units "site assessment.")%list) |}.
Proof.
  unfold ScriptHandlers.handleQuote. rewrite Hform.
  fold name type size.
  rewrite quote_condition.
  destruct (blank name || String.eqb type "" || negb (quotable size));
    unfold show_quote; rewrite Hel; [reflexivity|].
  unfold template. cbn [concat]. now rewrite <- ?app_assoc.
Qed.

End QuoteForm.

(** Both revisions of the quote handler refuse a name of white space only,
    an empty type, and a size that reads as zero or as no number at all;
    they show the same message and leave the form as it is. *)
Theorem handleQuote_refuses (toLocaleString : float -> text) (ev : event)
    (doc : document) (form : Quote.form) (el : element) :
  quoteForm doc = Some form -> quoteResult doc = Some el ->
  blank (control_value (Quote.name form)) = true
  \/ control_value (Quote.type form) = ""
  \/ quotable (parseFloat (control_value (Quote.size form))) = false ->
  handleQuote toLocaleString ev doc = quote_refused ev doc
  /\ ScriptHandlers.handleQuote toLocaleString ev doc = quote_refused ev doc.
Proof.
  intros Hform Hel Hbad.
  rewrite (handleQuote_outcome _ _ _ _ el Hform Hel),
    (Script_handleQuote_outcome _ _ _ _ el Hform Hel).
  destruct Hbad as [-> | [-> | ->]]; cbn [String.eqb negb orb];
    rewrite ?orb_true_r; split; reflexivity.
Qed.

Lemma handleQuote_refuses_witness :
  handleQuote (fun _ => units "$0.00") submit
    (quote_page (sample_quote "Ann" "commercial" "none" None None))
  = quote_refused submit
      (quote_page (sample_quote "Ann" "commercial" "none" None None))
  /\ ScriptHandlers.handleQuote (fun _ => units "$0.00") submit
       (quote_page (sample_quote "Ann" "commercial" "none" None None))
     = quote_refused submit
         (quote_page (sample_quote "Ann" "commercial" "none" None None)).
Proof.
  apply (handleQuote_refuses _ submit
           (quote_page (sample_quote "Ann" "commercial" "none" None None))
           (sample_quote "Ann" "commercial" "none" None None) empty_element).
  - reflexivity.
  - reflexivity.
  - right. right. reflexivity.
Defined.

(** An accepted quote names the trimmed name and the formatted amount of
    [calculateQuote] for the boxes as they are checked, and its text
    discloses a fee exactly when the amount includes it; a box missing from
    the form counts as unchecked.  The form is left as typed. *)
Theorem handleQuote_fees_disclosed (toLocaleString : float -> text) (ev : event)
    (doc : document) (form : Quote.form) (el : element) :
  quoteForm doc = Some form -> quoteResult doc = Some el ->
  blank (control_value (Quote.name form)) = false ->
  control_value (Quote.type form) <> "" ->
  quotable (parseFloat (control_value (Quote.size form))) = true ->
  let hasHazard := box_checked (Quote.hazardous form) in
  let hasLawn := box_checked (Quote.lawn form) in
  let estimate :=
    calculateQuote (parseFloat (control_value (Quote.size form)))
      (control_value (Quote.type form)) hasHazard hasLawn in
  handleQuote toLocaleString ev doc =
  {| returned := Normal false; event_after := preventDefault ev;
     page := set_quoteResult doc
               (shown (quote_text (trim (control_value (Quote.name form)))
                         (toLocaleString estimate) hasHazard hasLawn)) |}.
Proof.
  intros Hform Hel Hname Htype Hsize.
  rewrite (handleQuote_outcome _ _ _ _ el Hform Hel), Hname, Hsize.
  apply String.eqb_neq in Htype. now rewrite Htype.
Qed.

Lemma handleQuote_fees_disclosed_witness :
  handleQuote (fun _ => units "$1,925.00") submit
    (quote_page (sample_quote " Ann" "abandoned" "500" (box true) None)) =
  {| returned := Normal false; event_after := preventDefault submit;
     page := set_quoteResult
               (quote_page (sample_quote " Ann" "abandoned" "500" (box true) None))
               (shown (quote_text "Ann" (units "$1,925.00") true false)) |}.
Proof.
  apply (handleQuote_fees_disclosed (fun _ => units "$1,925.00") submit _
           (sample_quote " Ann" "abandoned" "500" (box true) None)
           empty_element).
  - reflexivity.
  - reflexivity.
  - reflexivity.
  - discriminate.
  - reflexivity.
Defined.

Lemma negative_estimates_check :
  forall_range negative_estimates (20 * 1000) 1 = true.
Proof. vm_compute. reflexivity. Qed.

(** Nothing asks for a positive size: a size that reads as a whole number
    from -20000 to -1 is accepted, and with an enumerated type and no box
    checked the amount quoted is below zero. *)
Theorem handleQuote_negative_size (toLocaleString : float -> text) (ev : event)
    (doc : document) (form : Quote.form) (el : element)
    (n : Z) (t : propertyType) :
  quoteForm doc = Some form -> quoteResult doc = Some el ->
  blank (control_value (Quote.name form)) = false ->
  control_value (Quote.type form) = key t ->
  parseFloat (control_value (Quote.size form)) = (- of_Z n)%float ->
  1 <= n <= 20000 ->
  box_checked (Quote.hazardous form) = false ->
  box_checked (Quote.lawn form) = false ->
  let estimate := calculateQuote (- of_Z n) (key t) false false in
  quoteResult (page (handleQuote toLocaleString ev doc))
  = Some (shown (quote_text (trim (control_value (Quote.name form)))
                   (toLocaleString estimate) false false))
  /\ (estimate <? 0)%float = true.
Proof.
  intros Hform Hel Hname Htype Hsize Hn Hhz Hlw.
  pose proof (forall_range_spec _ _ _ n negative_estimates_check ltac:(lia))
    as Hcheck.
  unfold negative_estimates in Hcheck.
  apply andb_true_iff in Hcheck as [Hquotable Hneg].
  rewrite forallb_forall in Hneg.
  rewrite (handleQuote_outcome _ _ _ _ el Hform Hel).
  rewrite Hname, Htype, Hsize, Hquotable, Hhz, Hlw.
  replace (String.eqb (key t) "") with false by (now destruct t).
  cbn [orb negb page quoteResult set_quoteResult]. split; [reflexivity|].
  unfold calculateQuote, js_or.
  rewrite Get_multipliers_key, multiplier_truthy. cbn [ToNumber].
  apply Hneg. destruct t; cbn; auto.
Qed.

Lemma handleQuote_negative_size_witness :
  quoteResult (page (handleQuote (fun _ => units "-$300.00") submit
    (quote_page (sample_quote "Ann" "commercial" "-100" None None))))
  = Some (shown (quote_text "Ann" (units "-$300.00") false false))
  /\ (calculateQuote (- of_Z 100) (key commercial) false false <? 0)%float
     = true.
Proof.
  apply (handleQuote_negative_size (fun _ => units "-$300.00") submit _
           (sample_quote "Ann" "commercial" "-100" None None) empty_element
           100 commercial); try reflexivity.
  lia.
Defined.

(** The quote handlers do not look whether the form and the result element
    are there: when one is missing they throw a [TypeError], after the
    default action was prevented and before anything is written. *)
Theorem handleQuote_missing_element (toLocaleString : float -> text)
    (ev : event) (doc : document) :
  quoteForm doc = None \/ quoteResult doc = None ->
  handleQuote toLocaleString ev doc
  = {| returned := Throw "TypeError"; event_after := preventDefault ev;
       page := doc |}
  /\ ScriptHandlers.handleQuote toLocaleString ev doc
     = {| returned := Throw "TypeError"; event_after := preventDefault ev;
          page := doc |}.
Proof.
  intros [H | H]; unfold handleQuote, ScriptHandlers.handleQuote.
  - rewrite H. split; reflexivity.
  - destruct (quoteForm doc) as [form|]; [|split; reflexivity].
    unfold show_quote. rewrite H.
    destruct (_ || _ || _ || _); split; reflexivity.
Qed.

Lemma handleQuote_missing_element_witness :
  handleQuote (fun _ => units "$300.00") submit empty_page
  = {| returned := Throw "TypeError"; event_after := preventDefault submit;
       page := empty_page |}
  /\ ScriptHandlers.handleQuote (fun _ => units "$300.00") submit empty_page
     = {| returned := Throw "TypeError"; event_after := preventDefault submit;
          page := empty_page |}.
Proof. apply handleQuote_missing_element. left. reflexivity. Defined.

(** ** [handleSchedule] *)

Lemma confirmation_flat (tza : Z) (renderDate : option Z -> text)
    (parseOther : string -> option Z) (name date time : string) :
  confirmation tza renderDate parseOther name date time
  = confirmation_text name
      (toLocaleDateString tza renderDate (Date_parse parseOther date)) time.
Proof.
  unfold confirmation, confirmation_text, template. cbn [concat].
  now rewrite ?app_nil_r.
Qed.

Section ScheduleForm.

Variable tza : Z.
Variable renderDate : option Z -> text.
Variable parseOther : string -> option Z.
Variables (ev : event) (doc : document) (form : Schedule.form) (el : element).
Hypothesis Hform : scheduleForm doc = Some form.
Hypothesis Hel : scheduleResult doc = Some el.

Let name := control_value (Schedule.name form).
Let date := control_value (Schedule.date form).
Let time := control_value (Schedule.time form).

Lemma schedule_condition :
  negb (truthy (trim name)) || negb (truthy date) || negb (truthy time)
  = blank name || String.eqb date "" || String.eqb time "".
Proof.
  rewrite truthy_trim. unfold truthy, ToBoolean.
  now rewrite !negb_involutive.
Qed.

Lemma handleSchedule_outcome :
  handleSchedule tza renderDate parseOther ev doc =
  if blank name || String.eqb date "" || String.eqb time ""
  then schedule_incomplete ev doc form
  else if isWithinAvailability tza (VString date) (VString time)
  then schedule_confirmed ev doc form
         (confirmation tza renderDate parseOther (trim name) date time)
  else schedule_refused ev doc form.
Proof.
  unfold handleSchedule. rewrite Hform. fold name date time.
  rewrite schedule_condition.
  destruct (blank name || String.eqb date "" || String.eqb time "");
    unfold show_schedule; rewrite Hel; [reflexivity|].
  destruct (isWithinAvailability tza (VString date) (VString time));
    reflexivity.
Qed.

Lemma Script_handleSchedule_outcome :
  ScriptHandlers.handleSchedule tza renderDate parseOther ev doc =
  if blank name || String.eqb date "" || String.eqb time ""
  then schedule_incomplete ev doc form
  else schedule_confirmed ev doc form
         (confirmation tza renderDate parseOther (trim name) date time).
Proof.
  unfold ScriptHandlers.handleSchedule. rewrite Hform. fold name date time.
  rewrite schedule_condition.
  destruct (blank name || String.eqb date "" || String.eqb time "");
    unfold show_schedule; rewrite Hel; reflexivity.
Qed.

End ScheduleForm.

(** The verdict on a weekday and a time [HH:MM], as a Boolean. *)
Lemma weekday_verdict (tza : Z) (d : string) (k h m : Z) :
  computedDay tza d = VNumber (of_Z k) -> 1 <= k <= 5 ->
  0 <= h < 24 -> 0 <= m < 60 ->
  isWithinAvailability tza (VString d) (VString (clock h m)) = in_window h m.
Proof.
  intros Hday Hk Hh Hm.
  rewrite isWithinAvailability_strings, Hday, numbers_clock by lia.
  cbn [index nth]. now apply guards_window.
Qed.

Lemma weekend_verdict (tza : Z) (d t : string) (k : Z) :
  computedDay tza d = VNumber (of_Z k) -> k = 0 \/ k = 6 ->
  isWithinAvailability tza (VString d) (VString t) = false.
Proof.
  intros Hday Hk. rewrite isWithinAvailability_strings, Hday.
  destruct Hk as [-> | ->]; reflexivity.
Qed.

Lemma clock_not_empty (h m : Z) : String.eqb (clock h m) "" = false.
Proof. reflexivity. Qed.

(** Both revisions of the schedule handler ask for the three fields when
    the name is blank or the date or the time is empty, and keep what was
    typed. *)
Theorem handleSchedule_missing_field (tza : Z) (renderDate : option Z -> text)
    (parseOther : string -> option Z) (ev : event) (doc : document)
    (form : Schedule.form) (el : element) :
  scheduleForm doc = Some form -> scheduleResult doc = Some el ->
  blank (control_value (Schedule.name form)) = true
  \/ control_value (Schedule.date form) = ""
  \/ control_value (Schedule.time form) = "" ->
  handleSchedule tza renderDate parseOther ev doc
  = schedule_incomplete ev doc form
  /\ ScriptHandlers.handleSchedule tza renderDate parseOther ev doc
     = schedule_incomplete ev doc form.
Proof.
  intros Hform Hel Hbad.
  rewrite (handleSchedule_outcome _ _ _ _ _ _ el Hform Hel),
    (Script_handleSchedule_outcome _ _ _ _ _ _ el Hform Hel).
  destruct Hbad as [-> | [-> | ->]]; cbn [String.eqb orb];
    rewrite ?orb_true_r; split; reflexivity.
Qed.

Lemma handleSchedule_missing_field_witness :
  handleSchedule 0 (fun _ => []) (fun _ => None) submit
    (schedule_page "  " "2024-06-10" "10:00")
  = schedule_incomplete submit (schedule_page "  " "2024-06-10" "10:00")
      (sample_schedule "  " "2024-06-10" "10:00")
  /\ ScriptHandlers.handleSchedule 0 (fun _ => []) (fun _ => None) submit
       (schedule_page "  " "2024-06-10" "10:00")
     = schedule_incomplete submit (schedule_page "  " "2024-06-10" "10:00")
         (sample_schedule "  " "2024-06-10" "10:00").
Proof.
  apply (handleSchedule_missing_field 0 _ _ submit
           (schedule_page "  " "2024-06-10" "10:00")
           (sample_schedule "  " "2024-06-10" "10:00") empty_element).
  - reflexivity.
  - reflexivity.
  - left. reflexivity.
Defined.

(** On a date whose computed day is Monday to Friday, a request for a time
    [HH:MM] is confirmed, and the form reset, exactly from 08:00 to 17:00;
    at any other time of the day the visitor is told the booking window and
    the form stays as typed. *)
Theorem handleSchedule_window (tza : Z) (renderDate : option Z -> text)
    (parseOther : string -> option Z) (ev : event) (doc : document)
    (form : Schedule.form) (el : element) (k h m : Z) :
  scheduleForm doc = Some form -> scheduleResult doc = Some el ->
  blank (control_value (Schedule.name form)) = false ->
  control_value (Schedule.date form) <> "" ->
  control_value (Schedule.time form) = clock h m ->
  computedDay tza (control_value (Schedule.date form)) = VNumber (of_Z k) ->
  1 <= k <= 5 -> 0 <= h < 24 -> 0 <= m < 60 ->
  handleSchedule tza renderDate parseOther ev doc =
  if (8 * 60 <=? h * 60 + m) && (h * 60 + m <=? 17 * 60)
  then schedule_confirmed ev doc form
         (confirmation tza renderDate parseOther
            (trim (control_value (Schedule.name form)))
            (control_value (Schedule.date form)) (clock h m))
  else schedule_refused ev doc form.
Proof.
  intros Hform Hel Hname Hdate Htime Hday Hk Hh Hm.
  rewrite (handleSchedule_outcome _ _ _ _ _ _ el Hform Hel).
  apply String.eqb_neq in Hdate.
  rewrite Hname, Hdate, Htime, clock_not_empty.
  cbn [orb]. now rewrite (weekday_verdict tza _ k h m).
Qed.

Lemma handleSchedule_window_witness :
  handleSchedule 0 (fun _ => units "June 10, 2024") (fun _ => None) submit
    (schedule_page "Ann" "2024-06-10" "17:01")
  = if (8 * 60 <=? 17 * 60 + 1) && (17 * 60 + 1 <=? 17 * 60)
    then schedule_confirmed submit (schedule_page "Ann" "2024-06-10" "17:01")
           (sample_schedule "Ann" "2024-06-10" "17:01")
           (confirmation 0 (fun _ => units "June 10, 2024") (fun _ => None)
              (trim "Ann") "2024-06-10" (clock 17 1))
    else schedule_refused submit (schedule_page "Ann" "2024-06-10" "17:01")
           (sample_schedule "Ann" "2024-06-10" "17:01").
Proof.
  apply (handleSchedule_window 0 _ _ submit
           (schedule_page "Ann" "2024-06-10" "17:01")
           (sample_schedule "Ann" "2024-06-10" "17:01") empty_element 1 17 1);
    try reflexivity; try discriminate; lia.
Defined.

(** On a date whose computed day is Saturday or Sunday no request is
    confirmed, whatever the time field holds. *)
Theorem handleSchedule_weekend (tza : Z) (renderDate : option Z -> text)
    (parseOther : string -> option Z) (ev : event) (doc : document)
    (form : Schedule.form) (el : element) (k : Z) :
  scheduleForm doc = Some form -> scheduleResult doc = Some el ->
  blank (control_value (Schedule.name form)) = false ->
  control_value (Schedule.date form) <> "" ->
  control_value (Schedule.time form) <> "" ->
  computedDay tza (control_value (Schedule.date form)) = VNumber (of_Z k) ->
  k = 0 \/ k = 6 ->
  handleSchedule tza renderDate parseOther ev doc = schedule_refused ev doc form.
Proof.
  intros Hform Hel Hname Hdate Htime Hday Hk.
  rewrite (handleSchedule_outcome _ _ _ _ _ _ el Hform Hel).
  apply String.eqb_neq in Hdate, Htime.
  rewrite Hname, Hdate, Htime. cbn [orb].
  now rewrite (weekend_verdict tza _ _ k).
Qed.

Lemma handleSchedule_weekend_witness :
  handleSchedule 0 (fun _ => []) (fun _ => None) submit
    (schedule_page "Ann" "2024-06-08" "10:00")
  = schedule_refused submit (schedule_page "Ann" "2024-06-08" "10:00")
      (sample_schedule "Ann" "2024-06-08" "10:00").
Proof.
  apply (handleSchedule_weekend 0 _ _ submit
           (schedule_page "Ann" "2024-06-08" "10:00")
           (sample_schedule "Ann" "2024-06-08" "10:00") empty_element 6);
    try reflexivity; try discriminate.
  right. reflexivity.
Defined.

(** A date that gives no valid [Date] does not stop a booking: when the
    computed day is [NaN], a request for a time [HH:MM] inside the window is
    confirmed and the form reset. *)
Theorem handleSchedule_invalid_date (tza : Z) (renderDate : option Z -> text)
    (parseOther : string -> option Z) (ev : event) (doc : document)
    (form : Schedule.form) (el : element) (h m : Z) :
  scheduleForm doc = Some form -> scheduleResult doc = Some el ->
  blank (control_value (Schedule.name form)) = false ->
  control_value (Schedule.date form) <> "" ->
  control_value (Schedule.time form) = clock h m ->
  computedDay tza (control_value (Schedule.date form)) = VNumber nan ->
  0 <= h < 24 -> 0 <= m < 60 -> 8 * 60 <= h * 60 + m <= 17 * 60 ->
  handleSchedule tza renderDate parseOther ev doc =
  schedule_confirmed ev doc form
    (confirmation tza renderDate parseOther
       (trim (control_value (Schedule.name form)))
       (control_value (Schedule.date form)) (clock h m)).
Proof.
  intros Hform Hel Hname Hdate Htime Hday Hh Hm Hwin.
  rewrite (handleSchedule_outcome _ _ _ _ _ _ el Hform Hel).
  apply String.eqb_neq in Hdate.
  rewrite Hname, Hdate, Htime, clock_not_empty. cbn [orb].
  rewrite invalid_date_treated_as_weekday by assumption.
  unfold in_window.
  now rewrite (proj2 (Z.leb_le _ _) (proj1 Hwin)),
    (proj2 (Z.leb_le _ _) (proj2 Hwin)).
Qed.

Lemma handleSchedule_invalid_date_witness :
  handleSchedule 0 (fun _ => units "Invalid Date") (fun _ => None) submit
    (schedule_page "Ann" "someday" "09:30")
  = schedule_confirmed submit (schedule_page "Ann" "someday" "09:30")
      (sample_schedule "Ann" "someday" "09:30")
      (confirmation 0 (fun _ => units "Invalid Date") (fun _ => None)
         (trim "Ann") "someday" (clock 9 30)).
Proof.
  apply (handleSchedule_invalid_date 0 _ _ submit
           (schedule_page "Ann" "someday" "09:30")
           (sample_schedule "Ann" "someday" "09:30") empty_element 9 30);
    try reflexivity; try discriminate; lia.
Defined.

(** The revision of [src/script.js] has no booking window: it confirms
    every request with a name, a date and a time.  The later revision
    leaves the same page whenever it finds the request available. *)
Theorem schedule_revisions (tza : Z) (renderDate : option Z -> text)
    (parseOther : string -> option Z) (ev : event) (doc : document)
    (form : Schedule.form) (el : element) :
  scheduleForm doc = Some form -> scheduleResult doc = Some el ->
  blank (control_value (Schedule.name form)) = false ->
  control_value (Schedule.date form) <> "" ->
  control_value (Schedule.time form) <> "" ->
  ScriptHandlers.handleSchedule tza renderDate parseOther ev doc
  = schedule_confirmed ev doc form
      (confirmation tza renderDate parseOther
         (trim (control_value (Schedule.name form)))
         (control_value (Schedule.date form))
         (control_value (Schedule.time form)))
  /\ (isWithinAvailability tza
        (VString (control_value (Schedule.date form)))
        (VString (control_value (Schedule.time form))) = true ->
      handleSchedule tza renderDate parseOther ev doc
      = ScriptHandlers.handleSchedule tza renderDate parseOther ev doc).
Proof.
  intros Hform Hel Hname Hdate Htime.
  rewrite (handleSchedule_outcome _ _ _ _ _ _ el Hform Hel),
    (Script_handleSchedule_outcome _ _ _ _ _ _ el Hform Hel).
  apply String.eqb_neq in Hdate, Htime.
  rewrite Hname, Hdate, Htime. cbn [orb].
  split; [reflexivity|]. now intros ->.
Qed.

Lemma schedule_revisions_witness :
  ScriptHandlers.handleSchedule 0 (fun _ => units "June 8, 2024")
    (fun _ => None) submit (schedule_page "Ann" "2024-06-08" "23:00")
  = schedule_confirmed submit (schedule_page "Ann" "2024-06-08" "23:00")
      (sample_schedule "Ann" "2024-06-08" "23:00")
      (confirmation 0 (fun _ => units "June 8, 2024") (fun _ => None)
         (trim "Ann") "2024-06-08" "23:00").
Proof.
  apply (schedule_revisions 0 (fun _ => units "June 8, 2024") (fun _ => None)
           submit (schedule_page "Ann" "2024-06-08" "23:00")
           (sample_schedule "Ann" "2024-06-08" "23:00") empty_element);
    try reflexivity; discriminate.
Defined.

(** The schedule handlers throw a [TypeError] when the form or the result
    element is missing, after the default action was prevented and before
    anything is written. *)
Theorem handleSchedule_missing_element (tza : Z) (renderDate : option Z -> text)
    (parseOther : string -> option Z) (ev : event) (doc : document) :
  scheduleForm doc = None \/ scheduleResult doc = None ->
  handleSchedule tza renderDate parseOther ev doc
  = {| returned := Throw "TypeError"; event_after := preventDefault ev;
       page := doc |}
  /\ ScriptHandlers.handleSchedule tza renderDate parseOther ev doc
     = {| returned := Throw "TypeError"; event_after := preventDefault ev;
          page := doc |}.
Proof.
  intros [H | H]; unfold handleSchedule, ScriptHandlers.handleSchedule.
  - rewrite H. split; reflexivity.
  - destruct (scheduleForm doc) as [form|]; [|split; reflexivity].
    unfold show_schedule. rewrite H.
    repeat match goal with
           | |- context [if ?c then _ else _] => destruct c
           end; split; reflexivity.
Qed.

Lemma handleSchedule_missing_element_witness :
  handleSchedule 0 (fun _ => []) (fun _ => None) submit empty_page
  = {| returned := Throw "TypeError"; event_after := preventDefault submit;
       page := empty_page |}
  /\ ScriptHandlers.handleSchedule 0 (fun _ => []) (fun _ => None) submit
       empty_page
     = {| returned := Throw "TypeError"; event_after := preventDefault submit;
          page := empty_page |}.
Proof. apply handleSchedule_missing_element. left. reflexivity. Defined.

(** ** The day a confirmation shows *)

Lemma digit_of_digit (k : Z) : 0 <= k <= 9 -> digit_of 10 (digit k) = Some k.
Proof.
  intros Hk.
  assert (Hcases : k = 0 \/ k = 1 \/ k = 2 \/ k = 3 \/ k = 4 \/ k = 5 \/
                   k = 6 \/ k = 7 \/ k = 8 \/ k = 9) by lia.
  repeat (destruct Hcases as [-> | Hcases]); try subst k; reflexivity.
Qed.

(** The fields read back from a date [YYYY-MM-DD]. *)
Lemma date_only_fields_iso_date (y m d : Z) :
  0 <= y < 10000 -> 0 <= m < 100 -> 0 <= d < 100 ->
  date_only_fields (iso_date y m d) = Some (y, m, d).
Proof.
  intros Hy Hm Hd. unfold iso_date, four_digits, two_digits.
  cbn [append]. unfold date_only_fields.
  rewrite !digit_of_digit by (Z.div_mod_to_equations; lia).
  cbn [Ascii.eqb Bool.eqb andb].
  repeat f_equal; Z.div_mod_to_equations; lia.
Qed.

Lemma DaysInMonth_bound (leap : bool) (m : Z) :
  1 <= m <= 12 -> 28 <= DaysInMonth leap m <= 31.
Proof.
  intros Hm.
  assert (Hcases : m = 1 \/ m = 2 \/ m = 3 \/ m = 4 \/ m = 5 \/ m = 6 \/
                   m = 7 \/ m = 8 \/ m = 9 \/ m = 10 \/ m = 11 \/ m = 12)
    by lia.
  repeat (destruct Hcases as [-> | Hcases]); try subst m;
    destruct leap; cbn; lia.
Qed.

(** [new Date("YYYY-MM-DD")] for a date of the calendar is midnight UTC of
    the day. *)
Lemma Date_parse_iso_date (parseOther : string -> option Z) (y m d : Z) :
  100 <= y <= 9999 -> 1 <= m <= 12 ->
  1 <= d <= DaysInMonth (InLeapYear y) m ->
  Date_parse parseOther (iso_date y m d) = Some (civil_day y m d * msPerDay).
Proof.
  intros Hy Hm Hd.
  pose proof (DaysInMonth_bound (InLeapYear y) m Hm) as Hdays.
  unfold Date_parse. rewrite date_only_fields_iso_date by lia.
  rewrite (proj2 (Z.leb_le 1 m)), (proj2 (Z.leb_le m 12)),
    (proj2 (Z.leb_le 1 d)), (proj2 (Z.leb_le d _)) by lia.
  cbn [andb]. unfold MakeDay.
  replace ((m - 1) / 12) with 0 by (symmetry; apply Z.div_small; lia).
  rewrite Z.mod_small, Z.add_0_r by lia.
  pose proof (first_of_month_in_range y (m - 1) Hy ltac:(lia)) as Hfirst.
  unfold civil_day.
  set (first := DayFromYear y + DayWithinYear (InLeapYear y) (m - 1)) in *.
  unfold msPerDay, maxTime in *.
  destruct (Z.leb_spec (Z.abs (first * 86400000)) 8640000000000000); [|lia].
  unfold TimeClip, MakeDate, maxTime, msPerDay.
  destruct (Z.leb_spec (Z.abs ((first + d - 1) * 86400000 + 0))
              8640000000000000); [|lia].
  f_equal. lia.
Qed.

(** The local day of midnight UTC: the day before, west of Greenwich. *)
Lemma local_day_of_utc_midnight (tza day : Z) :
  - msPerDay <= tza < msPerDay ->
  Day (LocalTime tza (day * msPerDay))
  = if tza <? 0 then day - 1 else day.
Proof.
  unfold Day, LocalTime, msPerDay. intros Htza.
  destruct (Z.ltb_spec tza 0); Z.div_mod_to_equations; lia.
Qed.

(** The day named in a confirmation is read from the date string as a UTC
    date and shown as a local one: for a date [YYYY-MM-DD] of the calendar
    it is the day requested when local time is UTC or ahead of it, and the
    day before when local time is behind UTC. *)
Theorem handleSchedule_confirmation_day (tza : Z) (renderDate : option Z -> text)
    (parseOther : string -> option Z) (ev : event) (doc : document)
    (form : Schedule.form) (el : element) (y m d : Z) :
  scheduleForm doc = Some form -> scheduleResult doc = Some el ->
  blank (control_value (Schedule.name form)) = false ->
  control_value (Schedule.date form) = iso_date y m d ->
  control_value (Schedule.time form) <> "" ->
  isWithinAvailability tza (VString (iso_date y m d))
    (VString (control_value (Schedule.time form))) = true ->
  100 <= y <= 9999 -> 1 <= m <= 12 ->
  1 <= d <= DaysInMonth (InLeapYear y) m ->
  - msPerDay <= tza < msPerDay ->
  handleSchedule tza renderDate parseOther ev doc =
  schedule_confirmed ev doc form
    (confirmation_text (trim (control_value (Schedule.name form)))
       (renderDate (Some (if tza <? 0 then civil_day y m d - 1
                          else civil_day y m d)))
       (control_value (Schedule.time form))).
Proof.
  intros Hform Hel Hname Hdate Htime Havail Hy Hm Hd Htza.
  rewrite (handleSchedule_outcome _ _ _ _ _ _ el Hform Hel).
  apply String.eqb_neq in Htime.
  rewrite Hname, Hdate, Htime, Havail.
  replace (String.eqb (iso_date y m d) "") with false by reflexivity.
  cbn [orb]. rewrite confirmation_flat, Date_parse_iso_date by assumption.
  unfold toLocaleDateString. cbn [option_map].
  now rewrite local_day_of_utc_midnight.
Qed.

Lemma handleSchedule_confirmation_day_witness :
  handleSchedule (- 18000000) (fun _ => units "June 9, 2024") (fun _ => None)
    submit (schedule_page "Ann" "2024-06-10" "10:00")
  = schedule_confirmed submit (schedule_page "Ann" "2024-06-10" "10:00")
      (sample_schedule "Ann" "2024-06-10" "10:00")
      (confirmation_text (trim "Ann")
         ((fun _ => units "June 9, 2024")
            (Some (if - 18000000 <? 0 then civil_day 2024 6 10 - 1
                   else civil_day 2024 6 10)))
         "10:00").
Proof.
  apply (handleSchedule_confirmation_day (- 18000000)
           (fun _ => units "June 9, 2024") (fun _ => None) submit
           (schedule_page "Ann" "2024-06-10" "10:00")
           (sample_schedule "Ann" "2024-06-10" "10:00") empty_element
           2024 6 10); try reflexivity; try discriminate;
    cbn; unfold msPerDay; lia.
Defined.

(** ** More on [isWithinAvailability] *)

Lemma hour_decides_check :
  forall_range (fun k => forall_range (hour_decides k) 24 0) 5 1 = true.
Proof. vm_compute. reflexivity. Qed.

Lemma guards_hour_decides (k h : Z) (minute : value) :
  hour_decides k h = true -> h <> 17 ->
  guards (VNumber (of_Z k)) (VNumber (of_Z h)) minute
  = (8 <=? h) && (h <=? 16).
Proof.
  unfold hour_decides, guards. intros H Hh.
  apply Z.eqb_neq in Hh. rewrite Hh in H. cbn [orb] in H.
  apply andb_true_iff in H as [H Heq]. apply andb_true_iff in H as [Hday Hhour].
  apply negb_true_iff in Hday, Heq. apply eqb_prop in Hhour.
  rewrite Hday, Heq, <- Hhour. cbn [andb].
  now destruct (js_lt _ _ || js_gt _ _).
Qed.

(** The minutes are looked at only at 17 hours: on a date whose computed
    day is Monday to Friday and at any other hour of the day, the request is
    accepted from 8 to 16 hours and refused otherwise, whatever follows the
    colon. *)
Theorem minutes_ignored_but_at_17 (tza : Z) (d : string) (k h : Z)
    (mm : string) :
  computedDay tza d = VNumber (of_Z k) -> 1 <= k <= 5 ->
  0 <= h < 24 -> h <> 17 ->
  isWithinAvailability tza (VString d) (VString (two_digits h ++ ":" ++ mm))
  = (8 <=? h) && (h <=? 16).
Proof.
  intros Hday Hk Hh H17.
  rewrite isWithinAvailability_strings, Hday.
  change (":" ++ mm)%string with (String ":" mm).
  rewrite numbers_app, (numbers_reads_as ":" _ h)
    by (auto using reads_as_two_digits with zarith).
  cbn [app index nth].
  apply guards_hour_decides; [|assumption].
  pose proof (forall_range_spec _ _ _ k hour_decides_check ltac:(lia)) as Hall.
  cbv beta in Hall.
  now apply forall_range_spec with (n := h) in Hall; [|lia].
Qed.

Lemma minutes_ignored_but_at_17_witness :
  isWithinAvailability 0 (VString "2024-06-10")
    (VString (two_digits 9 ++ ":" ++ "99"))
  = (8 <=? 9) && (9 <=? 16).
Proof.
  apply (minutes_ignored_but_at_17 0 "2024-06-10" 1 9 "99");
    try reflexivity; lia.
Defined.

Lemma hour_alone_check :
  forall_range (fun k =>
    forall_range (fun h =>
      Bool.eqb (guards (VNumber (of_Z k)) (VNumber (of_Z h)) VUndefined)
               ((8 <=? h) && (h <=? 17)))
      24 0)
    5 1 = true.
Proof. vm_compute. reflexivity. Qed.

(** A time with no colon is taken for the full hour: on a date whose
    computed day is Monday to Friday, [HH] alone is accepted exactly from 08
    to 17. *)
Theorem hour_without_minutes (tza : Z) (d : string) (k h : Z) :
  computedDay tza d = VNumber (of_Z k) -> 1 <= k <= 5 -> 0 <= h < 24 ->
  isWithinAvailability tza (VString d) (VString (two_digits h))
  = (8 <=? h) && (h <=? 17).
Proof.
  intros Hday Hk Hh.
  rewrite isWithinAvailability_strings, Hday.
  rewrite (numbers_reads_as ":" _ h)
    by (auto using reads_as_two_digits with zarith).
  cbn [index nth].
  pose proof (forall_range_spec _ _ _ k hour_alone_check ltac:(lia)) as Hall.
  cbv beta in Hall.
  apply forall_range_spec with (n := h) in Hall; [|lia].
  now apply eqb_prop.
Qed.

Lemma hour_without_minutes_witness :
  isWithinAvailability 0 (VString "2024-06-10") (VString (two_digits 17))
  = (8 <=? 17) && (17 <=? 17).
Proof.
  apply (hour_without_minutes 0 "2024-06-10" 1 17); try reflexivity; lia.
Defined.

(** The verdict on a date [YYYY-MM-DD] does not depend on the offset of
    local time from UTC. *)
Theorem verdict_same_in_all_zones (tza tza' y m d : Z) (t : value) :
  Z.abs tza <= msPerDay -> Z.abs tza' <= msPerDay ->
  0 <= y < 10000 -> 1 <= m <= 12 -> 0 <= d < 100 ->
  isWithinAvailability tza (VString (iso_date y m d)) t
  = isWithinAvailability tza' (VString (iso_date y m d)) t.
Proof.
  intros Htza Htza' Hy Hm Hd.
  destruct t as [| | | |t|];
    try (rewrite !time_not_string_rejected by discriminate; reflexivity).
  rewrite !isWithinAvailability_strings, !computedDay_iso_date by assumption.
  reflexivity.
Qed.

Lemma verdict_same_in_all_zones_witness :
  isWithinAvailability (- 28800000) (VString (iso_date 2024 6 10))
    (VString "16:30")
  = isWithinAvailability 32400000 (VString (iso_date 2024 6 10))
      (VString "16:30").
Proof.
  apply (verdict_same_in_all_zones (- 28800000) 32400000 2024 6 10);
    unfold msPerDay; lia.
Defined.

Lemma index_app_three (a b c e : list value) (i : nat) :
  a <> [] -> b <> [] -> c <> [] -> (i < 3)%nat ->
  index (((a ++ b) ++ c) ++ e) i = index ((a ++ b) ++ c) i.
Proof.
  intros Ha Hb Hc Hi. unfold index. apply app_nth1.
  rewrite !length_app.
  destruct a; [contradiction|]. destruct b; [contradiction|].
  destruct c; [contradiction|]. cbn [length]. lia.
Qed.

(** Only the first three parts of the date are read: what follows a third
    hyphen never changes the verdict. *)
Theorem extra_date_parts_ignored (tza : Z) (yy mm dd extra : string)
    (t : value) :
  isWithinAvailability tza
    (VString (yy ++ "-" ++ mm ++ "-" ++ dd ++ "-" ++ extra)) t
  = isWithinAvailability tza (VString (yy ++ "-" ++ mm ++ "-" ++ dd)) t.
Proof.
  destruct t as [| | | |t|];
    try (rewrite !time_not_string_rejected by discriminate; reflexivity).
  rewrite !isWithinAvailability_strings. f_equal.
  unfold computedDay.
  change ("-" ++ mm ++ "-" ++ dd ++ "-" ++ extra)%string
    with (String "-" (mm ++ String "-" (dd ++ String "-" extra))).
  change ("-" ++ mm ++ "-" ++ dd)%string
    with (String "-" (mm ++ String "-" dd)).
  rewrite !numbers_app, !app_assoc.
  rewrite !index_app_three by (auto using numbers_nonempty).
  reflexivity.
Qed.

(** ** Sizes with text after the number *)

(** A property of the ten digit characters holds of [digit k]. *)
Lemma digit_cases (k : Z) (P : ascii -> Prop) :
  0 <= k <= 9 ->
  P "0"%char -> P "1"%char -> P "2"%char -> P "3"%char -> P "4"%char ->
  P "5"%char -> P "6"%char -> P "7"%char -> P "8"%char -> P "9"%char ->
  P (digit k).
Proof.
  intros Hk.
  assert (Hcases : k = 0 \/ k = 1 \/ k = 2 \/ k = 3 \/ k = 4 \/ k = 5 \/
                   k = 6 \/ k = 7 \/ k = 8 \/ k = 9) by lia.
  repeat (destruct Hcases as [-> | Hcases]); try subst k; intros; assumption.
Qed.

(** [parseFloat] reads four digits, alone or followed by a space and
    anything else, as the number they write. *)
Lemma parseFloat_four_digits_suffix (n : Z) (suffix : string) :
  0 <= n < 10000 ->
  suffix = "" \/ (exists rest, suffix = String " " rest) ->
  parseFloat (four_digits n ++ suffix) = of_Z n.
Proof.
  intros Hn Hsuffix. unfold four_digits, two_digits. cbn [append].
  set (a := n / 1000). set (b := n / 100 mod 10).
  set (c := n mod 100 / 10). set (e := n mod 100 mod 10).
  assert (Ha : 0 <= a <= 9) by (unfold a; Z.div_mod_to_equations; lia).
  assert (Hb : 0 <= b <= 9) by (unfold b; Z.div_mod_to_equations; lia).
  assert (Hc : 0 <= c <= 9) by (unfold c; Z.div_mod_to_equations; lia).
  assert (He : 0 <= e <= 9) by (unfold e; Z.div_mod_to_equations; lia).
  assert (Hvalue : (((0 * 10 + a) * 10 + b) * 10 + c) * 10 + e = n)
    by (unfold a, b, c, e; Z.div_mod_to_equations; lia).
  unfold parseFloat.
  assert (Hhead : forall r,
    split_sign (trim_start (String (digit a) r)) = (false, String (digit a) r)
    /\ String.prefix "Infinity" (String (digit a) r) = false).
  { intros r. apply (digit_cases a (fun ch =>
      split_sign (trim_start (String ch r)) = (false, String ch r)
      /\ String.prefix "Infinity" (String ch r) = false)); auto. }
  destruct (Hhead (String (digit b) (String (digit c) (String (digit e) suffix))))
    as [-> ->].
  unfold read_decimal_prefix.
  cbn [read_digits]. rewrite !digit_of_digit by assumption.
  rewrite Hvalue.
  destruct Hsuffix as [-> | [rest ->]]; cbn;
    now rewrite decimal_to_float_integer.
Qed.

(** The size is read with [parseFloat], which stops at the end of the
    number: a size of four digits followed by a space and any text is
    quoted, or refused, like the four digits alone. *)
Theorem handleQuote_text_after_size (toLocaleString : float -> text)
    (ev : event) (doc doc' : document) (form form' : Quote.form)
    (el el' : element) (n : Z) (rest : string) :
  quoteForm doc = Some form -> quoteResult doc = Some el ->
  quoteForm doc' = Some form' -> quoteResult doc' = Some el' ->
  Quote.name form' = Quote.name form ->
  Quote.type form' = Quote.type form ->
  Quote.hazardous form' = Quote.hazardous form ->
  Quote.lawn form' = Quote.lawn form ->
  control_value (Quote.size form) = four_digits n ->
  control_value (Quote.size form') = four_digits n ++ " " ++ rest ->
  0 <= n < 10000 ->
  quoteResult (page (handleQuote toLocaleString ev doc'))
  = quoteResult (page (handleQuote toLocaleString ev doc)).
Proof.
  intros Hform Hel Hform' Hel' Hname Htype Hhz Hlw Hsize Hsize' Hn.
  rewrite (handleQuote_outcome _ _ _ _ el Hform Hel),
    (handleQuote_outcome _ _ _ _ el' Hform' Hel').
  rewrite Hname, Htype, Hhz, Hlw, Hsize, Hsize'.
  assert (Hplain : parseFloat (four_digits n) = of_Z n)
    by exact (parseFloat_four_digits_suffix n "" Hn (or_introl eq_refl)).
  change (" " ++ rest)%string with (String " " rest).
  rewrite Hplain, parseFloat_four_digits_suffix by eauto.
  destruct (_ || _ || _); reflexivity.
Qed.

Lemma handleQuote_text_after_size_witness :
  quoteResult (page (handleQuote (fun _ => units "$3,600.00") submit
    (quote_page (sample_quote "Ann" "commercial" "1200 sq ft" None None))))
  = quoteResult (page (handleQuote (fun _ => units "$3,600.00") submit
    (quote_page (sample_quote "Ann" "commercial" "1200" None None)))).
Proof.
  apply (handleQuote_text_after_size _ submit _ _
           (sample_quote "Ann" "commercial" "1200" None None)
           (sample_quote "Ann" "commercial" "1200 sq ft" None None)
           empty_element empty_element 1200 "sq ft"); try reflexivity.
  lia.
Defined.
